(** * Shallow embedding of the ARL session orchestrator

    Sources:
    - [src/arl-backend/app/services/session_orchestrator.py]
      (AgentTask, SessionOrchestrator: initialize, _plan_research_tasks,
       _execute_tasks, _execute_task, _resolve_placeholders,
       execute_research_workflow, execute_single_agent,
       _create_cell_from_result, _create_memory_from_result, _emit_event,
       close)
    - [src/arl-backend/app/services/a2a_client.py] (A2AAgentClient)
    - [src/arl-backend/app/services/adk_agents.py] (get_llm_model,
      get_llm_model_name, build_agent_card, ADKAgentService: initialize,
      get_agent, is_configured, call_agent)
    - [src/arl-backend/app/api/endpoints/sessions.py] (list_sessions,
      create_session, update_session, archive_session, delete_session,
      create_session_memory)
    - [src/arl-backend/app/core/seeds.py] (the seeded agent names)

    Database writes, the Runner of the ADK and the WebSocket send are the
    collaborators; where they may raise, the code's [try] blocks are
    modelled with a [Res] from a section variable.

    Python values are JSON-like data ([Val]); a Python [dict] is an
    association list in insertion order.  Exceptions are the constructors of
    [PyExn]; a computation that may raise returns [Res A]. *)

From Stdlib Require Import String Ascii List Bool Arith Lia ZArith Sorted.
Import ListNotations.
Open Scope string_scope.
Set Warnings "-register-all".

(** ** Python values *)

Inductive Val : Type :=
| VNone
| VBool (b : bool)
| VInt (z : Z)
| VFloat (lit : string)   (* a float literal, kept as its source text *)
| VStr (s : string)
| VList (l : list Val)
| VDict (d : list (string * Val)).

Definition Dict : Type := list (string * Val).

(** [d.get(k)]: the value bound to [k], or [None]. *)
Fixpoint dict_get (d : Dict) (k : string) : option Val :=
  match d with
  | [] => None
  | (k', v) :: d' => if String.eqb k k' then Some v else dict_get d' k
  end.

Definition dict_get_or_none (d : Dict) (k : string) : Val :=
  match dict_get d k with Some v => v | None => VNone end.

(** [d[k] = v]: overwrite in place when [k] is bound, append otherwise. *)
Fixpoint dict_set (d : Dict) (k : string) (v : Val) : Dict :=
  match d with
  | [] => [(k, v)]
  | (k', v') :: d' =>
      if String.eqb k k' then (k, v) :: d' else (k', v') :: dict_set d' k v
  end.

(** Python exceptions raised by the modelled code. *)
Inductive PyExn : Type :=
| RuntimeError (msg : string)
| ValueError (msg : string)
(** [RuntimeError(f"Task dependency deadlock detected. Pending: {pending}")],
    with the pending task ids it reports. *)
| DeadlockError (pending : list string)
(** any other [Exception] raised by a collaborator (database, ADK, ...) *)
| OtherException (msg : string).

Inductive Res (A : Type) : Type :=
| Ok (a : A)
| Raise (e : PyExn).
Arguments Ok {A} a.
Arguments Raise {A} e.

(** ** Python string operations *)

Definition startswith (pre s : string) : bool := String.prefix pre s.

Definition endswith (suf s : string) : bool :=
  Nat.leb (String.length suf) (String.length s) &&
  String.eqb (substring (String.length s - String.length suf) (String.length suf) s) suf.

(** [s[2:-2]] *)
Definition slice_2_m2 (s : string) : string :=
  substring 2 (String.length s - 4) s.

(** [str.isspace] on one character (the ASCII part of Python's set). *)
Definition is_space (c : ascii) : bool :=
  let n := nat_of_ascii c in
  (Nat.leb 9 n && Nat.leb n 13) || (Nat.leb 28 n && Nat.leb n 32).

Fixpoint lstrip (s : string) : string :=
  match s with
  | EmptyString => EmptyString
  | String c s' => if is_space c then lstrip s' else s
  end.

Fixpoint rev_string (s : string) : string :=
  match s with
  | EmptyString => EmptyString
  | String c s' => rev_string s' ++ String c EmptyString
  end.

(** [s.strip()] *)
Definition strip (s : string) : string :=
  rev_string (lstrip (rev_string (lstrip s))).

(** [s.split(sep)] for a one-character separator. *)
Fixpoint split_char_aux (sep : ascii) (s cur : string) : list string :=
  match s with
  | EmptyString => [cur]
  | String c s' =>
      if Ascii.eqb c sep then cur :: split_char_aux sep s' EmptyString
      else split_char_aux sep s' (cur ++ String c EmptyString)
  end.

Definition split_char (sep : ascii) (s : string) : list string :=
  split_char_aux sep s EmptyString.

(** [str(n)] for a natural number. *)
Fixpoint nat_str_aux (fuel n : nat) (acc : string) : string :=
  match fuel with
  | O => acc
  | S f =>
      let acc' := String (ascii_of_nat (48 + n mod 10)) acc in
      if Nat.ltb n 10 then acc' else nat_str_aux f (n / 10) acc'
  end.

Definition nat_str (n : nat) : string := nat_str_aux (S n) n EmptyString.

(** ** Placeholder resolution ([SessionOrchestrator._resolve_placeholders]) *)

Section Resolver.

(** [getattr(current, part, None)] on a value that is not a [dict]. *)
Variable getattr_ : Val -> string -> Val.

(** The navigation loop:
    [for part in parts: current = current.get(part) if dict else getattr(...)] *)
Fixpoint navigate (current : Val) (parts : list string) : Val :=
  match parts with
  | [] => current
  | part :: parts' =>
      let next := match current with
                  | VDict d => dict_get_or_none d part
                  | _ => getattr_ current part
                  end in
      navigate next parts'
  end.

(** [isinstance(value, str) and value.startswith("{{") and value.endswith("}}")] *)
Definition is_placeholder (value : Val) : bool :=
  match value with
  | VStr s => startswith "{{" s && endswith "}}" s
  | _ => false
  end.

(** [value[2:-2].strip().split(".")] *)
Definition ref_parts (s : string) : list string :=
  split_char "." (strip (slice_2_m2 s)).

Definition resolve_value (results : Dict) (value : Val) : Val :=
  match value with
  | VStr s =>
      if is_placeholder value then
        match navigate (VDict results) (ref_parts s) with
        | VNone => value
        | current => current
        end
      else value
  | _ => value
  end.

(** The loop [for key, value in input_data.items(): resolved[key] = ...];
    the keys of a [dict] are distinct, so [resolved] has the keys of
    [input_data] in the same order. *)
Definition _resolve_placeholders (input_data results : Dict) : Dict :=
  map (fun kv => (fst kv, resolve_value results (snd kv))) input_data.

End Resolver.

(** ** Tasks ([AgentTask]) *)

(** [self.status = "pending"  # pending | running | completed | failed] *)
Inductive TaskStatus : Type := Pending | Running | Completed | Failed.

Record AgentTask : Type := mkAgentTask {
  task_id : string;
  agent_id : string;
  agent_name : string;
  skill_name : string;
  input_data : Dict;
  depends_on : list string;
  status : TaskStatus;
  result : option Val;
  error : option PyExn   (* the exception whose [str] the code stores *)
}.

(** [AgentTask(task_id, agent_id, agent_name, skill_name, input_data, depends_on)] *)
Definition new_AgentTask (tid aid aname skill : string) (input : Dict)
    (deps : list string) : AgentTask :=
  mkAgentTask tid aid aname skill input deps Pending None None.

(** ** Planner ([SessionOrchestrator._plan_research_tasks]) *)

(** [agent_map]: agent name -> agent id, a [dict] of strings. *)
Definition StrMap : Type := list (string * string).

Fixpoint smap_get (m : StrMap) (k : string) : option string :=
  match m with
  | [] => None
  | (k', v) :: m' => if String.eqb k k' then Some v else smap_get m' k
  end.

Fixpoint smap_set (m : StrMap) (k v : string) : StrMap :=
  match m with
  | [] => [(k, v)]
  | (k', v') :: m' =>
      if String.eqb k k' then (k, v) :: m' else (k', v') :: smap_set m' k v
  end.

(** [for sa in self.session_agents: ... if agent: agent_map[agent.name] = agent.id];
    [rows] lists [(agent.name, agent.id)] for the session agents whose
    [Agent] row was found, in order. *)
Definition build_agent_map (rows : list (string * string)) : StrMap :=
  fold_left (fun m nr => smap_set m (fst nr) (snd nr)) rows [].

(** [f"task_{task_counter}"] *)
Definition task_name (counter : nat) : string := "task_" ++ nat_str counter.

(** One [if "<name>" in agent_map:] block: bump the counter and append a task. *)
Definition plan_stage (agent_map : StrMap) (name : string) (counter : nat)
    (mk : string -> string -> AgentTask) : nat * list AgentTask :=
  match smap_get agent_map name with
  | Some aid => (S counter, [mk (task_name (S counter)) aid])
  | None => (counter, [])
  end.

Definition _plan_research_tasks (agent_map : StrMap)
    (session_id initial_prompt : string) : list AgentTask :=
  let '(c1, t1) := plan_stage agent_map "hypothesis_agent" 0 (fun tid aid =>
        new_AgentTask tid aid "hypothesis_agent" "generate_hypotheses"
          [("literature_summary", VStr initial_prompt);
           ("research_gap", VStr "Identified from prompt");
           ("domain", VStr "general")] []) in
  let '(c2, t2) := plan_stage agent_map "experiment_agent" c1 (fun tid aid =>
        new_AgentTask tid aid "experiment_agent" "design_experiment"
          [("hypothesis", VStr "{{task_1.result}}");
           ("domain", VStr "general")] ["task_1"]) in
  let '(c3, t3) := plan_stage agent_map "code_gen_agent" c2 (fun tid aid =>
        new_AgentTask tid aid "code_gen_agent" "generate_code"
          [("experiment_design", VStr "{{task_2.result}}");
           ("domain", VStr "general")] ["task_2"]) in
  let '(c4, t4) := plan_stage agent_map "execution_agent" c3 (fun tid aid =>
        new_AgentTask tid aid "execution_agent" "execute_experiment"
          [("experiment_id", VStr session_id);
           ("code", VStr "{{task_3.result.code}}")] ["task_3"]) in
  let '(_, t5) := plan_stage agent_map "analysis_agent" c4 (fun tid aid =>
        new_AgentTask tid aid "analysis_agent" "analyze_results"
          [("hypothesis", VStr "{{task_1.result}}");
           ("experiment_design", VStr "{{task_2.result}}");
           ("execution_results", VStr "{{task_4.result}}");
           ("domain", VStr "general")] ["task_1"; "task_2"; "task_4"]) in
  t1 ++ t2 ++ t3 ++ t4 ++ t5.

(** ** Executor ([SessionOrchestrator._execute_tasks]) *)

(** [x in s] for the set [completed_tasks] *)
Definition mem (x : string) (l : list string) : bool := existsb (String.eqb x) l.

(** [completed_tasks.add(x)] *)
Definition set_add (x : string) (l : list string) : list string :=
  if mem x l then l else l ++ [x].

(** [task.task_id not in completed_tasks
     and all(dep in completed_tasks for dep in task.depends_on)] *)
Definition is_ready (completed : list string) (t : AgentTask) : bool :=
  negb (mem (task_id t) completed) &&
  forallb (fun dep => mem dep completed) (depends_on t).

(** The bookkeeping after [asyncio.gather(..., return_exceptions=True)]. *)
Definition settle (t : AgentTask) (r : Res Val) : AgentTask :=
  match r with
  | Raise e =>
      mkAgentTask (task_id t) (agent_id t) (agent_name t) (skill_name t)
        (input_data t) (depends_on t) Failed (result t) (Some e)
  | Ok v =>
      mkAgentTask (task_id t) (agent_id t) (agent_name t) (skill_name t)
        (input_data t) (depends_on t) Completed (Some v) (error t)
  end.

(** The mutable locals and objects of [_execute_tasks]: the task objects, the
    [results] dict, the [completed_tasks] set (a duplicate-free list), and a
    log of the calls [execute_single_agent] received, each with the index of
    the wave that made it. *)
Record ExecState : Type := mkExecState {
  st_tasks : list AgentTask;
  st_results : Dict;
  st_completed : list string;
  st_log : list (nat * AgentTask * Dict)
}.

Section Executor.

Variable getattr_ : Val -> string -> Val.

(** [SessionOrchestrator.execute_single_agent(agent_id, skill_name, input_data)]:
    it either returns the agent's result or raises. *)
Variable execute_single_agent : string -> string -> Dict -> Res Val.

(** [_execute_task]: resolve the placeholders, then call the agent. *)
Definition _execute_task (t : AgentTask) (previous_results : Dict) : Res Val :=
  execute_single_agent (agent_id t) (skill_name t)
    (_resolve_placeholders getattr_ (input_data t) previous_results).

(** [for task, result in zip(ready_tasks, task_results): ...] *)
Fixpoint process_results (wave : list (AgentTask * Res Val))
    (results : Dict) (completed : list string) : Dict * list string :=
  match wave with
  | [] => (results, completed)
  | (t, r) :: wave' =>
      let results' := match r with
                      | Ok v => dict_set results (task_id t) v
                      | Raise _ => results
                      end in
      process_results wave' results' (set_add (task_id t) completed)
  end.

(** One iteration of the [while] body.  Every task of the wave resolves its
    placeholders against [results] as it stood before the wave: [results]
    is only written after [gather] returns. *)
Definition exec_step (w : nat) (st : ExecState) : Res ExecState :=
  let completed := st_completed st in
  let ready := filter (is_ready completed) (st_tasks st) in
  match ready with
  | [] =>
      Raise (DeadlockError
               (map task_id (filter (fun t => negb (mem (task_id t) completed))
                               (st_tasks st))))
  | _ :: _ =>
      let wave := map (fun t => (t, _execute_task t (st_results st))) ready in
      let '(results', completed') :=
        process_results wave (st_results st) completed in
      Ok (mkExecState
            (map (fun t => if is_ready completed t
                           then settle t (_execute_task t (st_results st))
                           else t) (st_tasks st))
            results' completed'
            (st_log st ++ map (fun t => (w, t, _resolve_placeholders getattr_
                                               (input_data t) (st_results st)))
                              ready))
  end.

(** [while len(completed_tasks) < len(tasks): ...], run for at most [fuel]
    iterations; [None] means the fuel ran out. *)
Fixpoint exec_loop (fuel w : nat) (st : ExecState)
    : option (Res unit * ExecState) :=
  match fuel with
  | O => None
  | S fuel' =>
      if Nat.ltb (length (st_completed st)) (length (st_tasks st)) then
        match exec_step w st with
        | Raise e => Some (Raise e, st)
        | Ok st' => exec_loop fuel' (S w) st'
        end
      else Some (Ok tt, st)
  end.

Definition init_state (tasks : list AgentTask) : ExecState :=
  mkExecState tasks [] [] [].

(** [_execute_tasks(tasks)], given one more iteration than there are tasks. *)
Definition _execute_tasks (tasks : list AgentTask)
    : option (Res unit * ExecState) :=
  exec_loop (S (length tasks)) 0 (init_state tasks).

(** [execute_research_workflow(initial_prompt)].  [session] is the status of
    [self.session] ([None] when no session is loaded); [rows] gives the
    planner's [agent_map].  Returns the outcome, the session status after
    the run and the executor's final state. *)
Definition execute_research_workflow (session : option string)
    (rows : list (string * string)) (session_id initial_prompt : string)
    : option (Res Val * option string * ExecState) :=
  let session1 := option_map (fun _ => "active") session in
  let tasks := _plan_research_tasks (build_agent_map rows) session_id initial_prompt in
  match _execute_tasks tasks with
  | None => None
  | Some (Ok _, st) =>
      Some (Ok (VDict [("status", VStr "success");
                       ("tasks_completed", VInt (Z.of_nat (length tasks)));
                       ("results", VDict (st_results st))]),
            option_map (fun _ => "completed") session1, st)
  | Some (Raise e, st) =>
      Some (Raise e, option_map (fun _ => "failed") session1, st)
  end.

End Executor.

(** ** Session memories ([POST /sessions/{session_id}/memories]) *)

Record SessionRow : Type := mkSessionRow {
  sess_id : string;
  sess_project_id : string;
  sess_status : string   (* 'active' | 'completed' | 'archived' | 'failed' *)
}.

Record SessionMemory : Type := mkSessionMemory {
  mem_session_id : string;
  mem_project_id : string;
  mem_type : string;
  mem_content : string
}.

Inductive HttpOutcome : Type :=
| Created (m : SessionMemory)                  (* 201 with the new memory *)
| HTTPException (status_code : nat) (detail : string).

(** [create_session_memory]: [session] is the row the [select] found, and
    [store] the memories already saved. *)
Definition create_session_memory (session : option SessionRow)
    (session_id memory_type content : string) (store : list SessionMemory)
    : HttpOutcome * list SessionMemory :=
  match session with
  | None => (HTTPException 404 "Session not found", store)
  | Some s =>
      if String.eqb (sess_status s) "archived" then
        (HTTPException 400 "Cannot add memories to archived session", store)
      else
        let m := mkSessionMemory session_id (sess_project_id s) memory_type content in
        (Created m, (store ++ [m])%list)
  end.

(** ** The agent client ([A2AAgentClient]) *)

Module A2A.

Record A2AAgentClient : Type := mkClient {
  agent_name : string;
  service_url : option string;
  is_initialized : bool;
  _adk_service : bool;   (* [self._adk_service is not None] *)
  _use_adk : bool
}.

(** [A2AAgentClient(agent_name, service_url)] *)
Definition new_client (name : string) (url : option string) : A2AAgentClient :=
  mkClient name url false false false.

(** What the global [adk_agent_service] does when the client calls it; each
    call may raise an [Exception] instead. *)
Record AdkService : Type := mkAdkService {
  (** [from app.services.adk_agents import adk_agent_service;
      adk_agent_service.initialize()] *)
  adk_initialize : Res unit;
  (** whether [adk_agent_service.get_agent(name)] is truthy *)
  adk_get_agent : string -> Res bool;
  adk_is_configured : Res bool;
  adk_call_agent : string -> string -> Dict -> Res Val
}.

Definition set_adk (c : A2AAgentClient) (svc use : bool) : A2AAgentClient :=
  mkClient (agent_name c) (service_url c) (is_initialized c) svc use.

(** [initialize()]: the [try] block, its [except Exception] handler
    ([self._use_adk = False]), then [self.is_initialized = True]. *)
Definition initialize (env : AdkService) (c : A2AAgentClient) : Res A2AAgentClient :=
  let after_try :=
    match adk_initialize env with
    | Raise _ => set_adk c (_adk_service c) false
    | Ok _ =>
        match adk_get_agent env (agent_name c) with
        | Raise _ => set_adk c (_adk_service c) false
        | Ok false => c
        | Ok true =>
            match adk_is_configured env with
            | Raise _ => set_adk c true false
            | Ok b => set_adk c true b
            end
        end
    end in
  Ok (mkClient (agent_name after_try) (service_url after_try) true
        (_adk_service after_try) (_use_adk after_try)).

Definition nl : string := String (ascii_of_nat 10) EmptyString.
Definition dq3 : string :=
  let q := ascii_of_nat 34 in String q (String q (String q EmptyString)).

(** A multi-line literal, one element per line. *)
Definition lines (ls : list string) : string := String.concat nl ls.

Section Stub.

(** [str(x)] inside an f-string. *)
Variable py_str : Val -> string.

Definition get_default (d : Dict) (k : string) (default : Val) : Val :=
  match dict_get d k with Some v => v | None => default end.

(** [_get_stub_response(skill_name, input_data)] *)
Definition _get_stub_response (c : A2AAgentClient) (skill_name : string)
    (input_data : Dict) : Val :=
  if String.eqb skill_name "generate_hypotheses" then
    VDict [("status", VStr "success");
           ("raw_output", VStr (lines
              ["# Generated Hypotheses (Stub)"; "";
               "Based on the research prompt:"; "";
               "1. **Hypothesis 1**: Initial hypothesis based on literature";
               "2. **Hypothesis 2**: Alternative explanation";
               "3. **Hypothesis 3**: Novel approach hypothesis"; "";
               "Input: " ++ py_str (get_default input_data "literature_summary" (VStr "N/A"));
               "";
               "*Note: Configure ANTHROPIC_API_KEY or GOOGLE_API_KEY for real LLM responses.*"]));
           ("hypotheses", VList
              [VDict [("id", VStr "h1"); ("text", VStr "Primary hypothesis");
                      ("confidence", VFloat "0.8")];
               VDict [("id", VStr "h2"); ("text", VStr "Secondary hypothesis");
                      ("confidence", VFloat "0.6")]])]
  else if String.eqb skill_name "design_experiment" then
    VDict [("status", VStr "success");
           ("raw_output", VStr (lines
              ["# Experiment Design (Stub)"; ""; "## Methodology";
               "- Step 1: Setup"; "- Step 2: Execute"; "- Step 3: Collect data"; "";
               "## Expected Outcomes"; "- Measurement criteria defined";
               "- Control variables established"; "";
               "*Note: Configure an API key for real LLM responses.*"]));
           ("design", VDict
              [("steps", VList [VStr "setup"; VStr "execute"; VStr "collect"]);
               ("variables", VList [VStr "independent"; VStr "dependent"; VStr "control"])])]
  else if String.eqb skill_name "generate_code" then
    VDict [("status", VStr "success");
           ("code", VStr (lines
              ["# Generated Experiment Code (Stub)"; "";
               "import numpy as np"; "import pandas as pd"; "";
               "def run_experiment():";
               "    " ++ dq3 ++ "Execute the designed experiment." ++ dq3;
               "    np.random.seed(42)";
               "    data = np.random.randn(100)";
               "    return pd.DataFrame({'results': data})"; "";
               "if __name__ == '__main__':";
               "    results = run_experiment()";
               "    print(results.describe())"; "";
               "# Note: Configure an API key for real LLM responses."; ""]));
           ("language", VStr "python")]
  else if String.eqb skill_name "execute_experiment" then
    VDict [("status", VStr "success");
           ("raw_output", VStr (lines
              ["# Experiment Execution Results (Stub)"; "";
               "Experiment completed successfully."; ""; "## Results Summary";
               "- Samples processed: 100"; "- Success rate: 95%";
               "- Execution time: 2.3s"; "";
               "*Note: Configure an API key for real LLM responses.*"]));
           ("execution_id", get_default input_data "experiment_id" (VStr "unknown"));
           ("metrics", VDict [("samples", VInt 100); ("success_rate", VFloat "0.95");
                              ("duration", VFloat "2.3")])]
  else if String.eqb skill_name "analyze_results" then
    VDict [("status", VStr "success");
           ("raw_output", VStr (lines
              ["# Analysis Report (Stub)"; ""; "## Statistical Analysis";
               "- Mean: 0.05"; "- Std Dev: 1.02"; "- P-value: 0.03"; "";
               "## Conclusions";
               "The results support the primary hypothesis with statistical significance (p < 0.05).";
               ""; "## Recommendations"; "1. Further investigation recommended";
               "2. Consider expanding sample size"; "";
               "*Note: Configure an API key for real LLM responses.*"]));
           ("analysis", VDict [("hypothesis_supported", VBool true);
                               ("confidence", VFloat "0.85");
                               ("p_value", VFloat "0.03")])]
  else
    VDict [("status", VStr "success");
           ("raw_output", VStr (lines
              ["# Agent Output (Stub)"; "";
               "Agent: " ++ agent_name c; "Skill: " ++ skill_name; "";
               "Execution completed."; "";
               "*Note: Configure an API key for real LLM responses.*"]));
           ("input_received", VDict input_data)].

(** [call_skill(skill_name, input_data)] *)
Definition call_skill (env : AdkService) (c : A2AAgentClient)
    (skill_name : string) (input_data : Dict) : Res Val :=
  if _use_adk c && _adk_service c then
    match adk_call_agent env (agent_name c) skill_name input_data with
    | Ok result => Ok result
    | Raise _ => Ok (_get_stub_response c skill_name input_data)
    end
  else Ok (_get_stub_response c skill_name input_data).

End Stub.

(** [close()] *)
Definition close (c : A2AAgentClient) : A2AAgentClient :=
  mkClient (agent_name c) (service_url c) false (_adk_service c) (_use_adk c).

End A2A.

(** ** Session endpoints ([app/api/endpoints/sessions.py]) *)

(** A row of [agents] ([app/models/agent.py]). *)
Record Agent : Type := mkAgent {
  a_id : string;
  a_name : string;
  a_display_name : string;
  a_description : option string;
  a_service_endpoint : option string;
  a_is_active : bool;
  a_is_system : bool
}.

(** A row of [sessions]; [created_at] and [archived_at] are points in time. *)
Record SessionObj : Type := mkSessionObj {
  so_id : string;
  so_project_id : string;
  so_name : string;
  so_description : option string;
  so_status : string;
  so_initial_prompt : option string;
  so_created_by : string;
  so_created_at : nat;
  so_archived_at : option nat
}.

(** The columns [create_session_memory] reads. *)
Definition session_row (s : SessionObj) : SessionRow :=
  mkSessionRow (so_id s) (so_project_id s) (so_status s).

(** A row of [session_memories]: the memory and its [is_archived] flag. *)
Record MemoryRow : Type := mkMemoryRow {
  mr_memory : SessionMemory;
  mr_is_archived : bool
}.

Record ProjectAgentRow : Type := mkProjectAgentRow {
  pa_project_id : string;
  pa_agent_id : string;
  pa_is_enabled : bool;
  pa_agent_config : option Dict
}.

Record SessionAgentRow : Type := mkSessionAgentRow {
  sa_session_id : string;
  sa_agent_id : string;
  sa_is_enabled : bool;
  sa_agent_config : option Dict
}.

Record SessionCellRow : Type := mkSessionCellRow {
  sc_session_id : string;
  sc_cell_id : string;
  sc_position : nat;
  sc_created_by_agent : option string
}.

Record ProjectMemory : Type := mkProjectMemory {
  pm_project_id : string;
  pm_memory_type : string;
  pm_content : string;
  pm_summary : option string;
  pm_memory_metadata : Dict;
  pm_source_session_ids : list string
}.

(** The tables the endpoints read and write. *)
Record Db : Type := mkDb {
  db_sessions : list SessionObj;
  db_memories : list MemoryRow;
  db_session_cells : list SessionCellRow;
  db_session_agents : list SessionAgentRow;
  db_project_agents : list ProjectAgentRow;
  db_agents : list Agent;
  db_project_memories : list ProjectMemory
}.

Definition set_sessions (db : Db) (l : list SessionObj) : Db :=
  mkDb l (db_memories db) (db_session_cells db) (db_session_agents db)
    (db_project_agents db) (db_agents db) (db_project_memories db).

(** An endpoint's answer: the response body, an [HTTPException], or an
    exception that escapes the handler. *)
Inductive Http (A : Type) : Type :=
| Resp (a : A)
| HttpErr (status_code : nat) (detail : string)
| Unhandled (e : PyExn).
Arguments Resp {A} a.
Arguments HttpErr {A} status_code detail.
Arguments Unhandled {A} e.

(** [select(Session).where(Session.id == session_id,
                           Session.project_id == project_id)]
    then [scalar_one_or_none()] ([id] is the primary key). *)
Definition find_session (project_id session_id : string) (db : Db) : option SessionObj :=
  find (fun s => String.eqb (so_id s) session_id && String.eqb (so_project_id s) project_id)
    (db_sessions db).

(** [db.commit()] after changing the loaded session object. *)
Definition replace_session (s : SessionObj) (l : list SessionObj) : list SessionObj :=
  map (fun s0 => if String.eqb (so_id s0) (so_id s) then s else s0) l.

Definition memory_of (session_id : string) (m : MemoryRow) : bool :=
  String.eqb (mem_session_id (mr_memory m)) session_id.

(** [count(...)] of the rows of a session. *)
Definition count_memories (session_id : string) (db : Db) : nat :=
  length (filter (memory_of session_id) (db_memories db)).

Definition count_cells (session_id : string) (db : Db) : nat :=
  length (filter (fun c => String.eqb (sc_session_id c) session_id) (db_session_cells db)).

(** [if status_filter:] -- [None] and the empty string are falsy. *)
Definition truthy_str (o : option string) : bool :=
  match o with Some s => negb (String.eqb s "") | None => false end.

(** [order_by(Session.created_at.desc())], ties kept in table order. *)
Fixpoint insert_desc (s : SessionObj) (l : list SessionObj) : list SessionObj :=
  match l with
  | [] => [s]
  | s0 :: l' =>
      if Nat.ltb (so_created_at s0) (so_created_at s) then s :: l else s0 :: insert_desc s l'
  end.

Fixpoint sort_desc (l : list SessionObj) : list SessionObj :=
  match l with [] => [] | s :: l' => insert_desc s (sort_desc l') end.

(** [list_sessions] for non-negative [skip] and [limit]: each session with
    its [memory_count] and [cell_count]. *)
Definition list_sessions (project_id : string) (status_filter : option string)
    (skip limit : nat) (db : Db) : list (SessionObj * nat * nat) :=
  let q := filter (fun s => String.eqb (so_project_id s) project_id) (db_sessions db) in
  let q := match status_filter with
           | Some f => if truthy_str status_filter
                       then filter (fun s => String.eqb (so_status s) f) q else q
           | None => q
           end in
  let sessions := firstn limit (skipn skip (sort_desc q)) in
  map (fun s => (s, count_memories (so_id s) db, count_cells (so_id s) db)) sessions.



(** [SessionStatus] *)
Inductive SessionStatus : Type := ACTIVE | COMPLETED | ARCHIVED | FAILED.

Definition status_value (s : SessionStatus) : string :=
  match s with
  | ACTIVE => "active" | COMPLETED => "completed"
  | ARCHIVED => "archived" | FAILED => "failed"
  end.

(** [SessionUpdate.model_dump(exclude_unset=True)]: the outer [option] says
    whether the field was sent, the inner one whether it was [null]. *)
Record SessionUpdate : Type := mkSessionUpdate {
  upd_name : option (option string);
  upd_description : option (option string);
  upd_status : option (option SessionStatus)
}.

(** [update_session].  [setattr] of [None] on the non-nullable [name] or
    [status] column makes [db.commit()] raise an integrity error. *)
Definition update_session (project_id session_id : string) (upd : SessionUpdate) (db : Db)
    : Http SessionObj * Db :=
  match find_session project_id session_id db with
  | None => (HttpErr 404 "Session not found", db)
  | Some s =>
      match upd_name upd, upd_status upd with
      | Some None, _ | _, Some None =>
          (Unhandled (OtherException "IntegrityError"), db)
      | _, _ =>
          let name := match upd_name upd with Some (Some n) => n | _ => so_name s end in
          let description := match upd_description upd with
                             | Some d => d | None => so_description s end in
          let status := match upd_status upd with
                        | Some (Some st) => status_value st | _ => so_status s end in
          let s' := mkSessionObj (so_id s) (so_project_id s) name description status
                      (so_initial_prompt s) (so_created_by s) (so_created_at s)
                      (so_archived_at s) in
          (Resp s', set_sessions db (replace_session s' (db_sessions db)))
      end
  end.

(** [archive_session]: [now] is [datetime.utcnow()] for [archived_at] and
    [now_iso] the [isoformat()] written in the project memory. *)
Definition archive_session (project_id session_id : string) (generate_summary : bool)
    (now : nat) (now_iso : string) (db : Db) : Http SessionObj * Db :=
  match find_session project_id session_id db with
  | None => (HttpErr 404 "Session not found", db)
  | Some s =>
      if String.eqb (so_status s) "archived" then
        (HttpErr 400 "Session is already archived", db)
      else
        let memories := filter (memory_of session_id) (db_memories db) in
        let memories' := map (fun m => if memory_of session_id m
                                       then mkMemoryRow (mr_memory m) true else m)
                           (db_memories db) in
        let project_memory :=
          if generate_summary then
            let content_parts :=
              filter (fun c => negb (String.eqb c ""))
                (map (fun m => mem_content (mr_memory m)) memories) in
            let combined_content := String.concat (A2A.nl ++ A2A.nl) content_parts in
            let summary := "Archived session: " ++ so_name s ++ ". Contains "
                           ++ nat_str (length memories) ++ " memories." in
            [mkProjectMemory project_id "session_archive"
               (if String.eqb combined_content "" then ""
                else substring 0 10000 combined_content)
               (Some summary)
               [("session_name", VStr (so_name s));
                ("memory_count", VInt (Z.of_nat (length memories)));
                ("archived_at", VStr now_iso)]
               [session_id]]
          else [] in
        let s' := mkSessionObj (so_id s) (so_project_id s) (so_name s) (so_description s)
                    "archived" (so_initial_prompt s) (so_created_by s) (so_created_at s)
                    (Some now) in
        (Resp s',
         mkDb (replace_session s' (db_sessions db)) memories' (db_session_cells db)
           (db_session_agents db) (db_project_agents db) (db_agents db)
           (db_project_memories db ++ project_memory))
  end.

(** [delete_session]: [db.delete(session)] also deletes the session's
    memories, cells and agents ([cascade="all, delete-orphan"]). *)
Definition delete_session (project_id session_id user_id : string) (db : Db)
    : Http unit * Db :=
  match find_session project_id session_id db with
  | None => (HttpErr 404 "Session not found", db)
  | Some s =>
      if negb (String.eqb (so_created_by s) user_id) then
        (HttpErr 403 "Only session creator can delete session", db)
      else
        (Resp tt,
         mkDb (filter (fun s0 => negb (String.eqb (so_id s0) (so_id s))) (db_sessions db))
           (filter (fun m => negb (memory_of (so_id s) m)) (db_memories db))
           (filter (fun c => negb (String.eqb (sc_session_id c) (so_id s))) (db_session_cells db))
           (filter (fun a => negb (String.eqb (sa_session_id a) (so_id s))) (db_session_agents db))
           (db_project_agents db) (db_agents db) (db_project_memories db))
  end.

(** ** Association lists with string keys (a [Dict[str, X]]) *)

Fixpoint assoc_get {A : Type} (d : list (string * A)) (k : string) : option A :=
  match d with
  | [] => None
  | (k', v) :: d' => if String.eqb k k' then Some v else assoc_get d' k
  end.

(** [d[k] = v] *)
Fixpoint assoc_set {A : Type} (d : list (string * A)) (k : string) (v : A) : list (string * A) :=
  match d with
  | [] => [(k, v)]
  | (k', v') :: d' =>
      if String.eqb k k' then (k, v) :: d' else (k', v') :: assoc_set d' k v
  end.

(** ** The ADK agent service ([app/services/adk_agents.py]) *)

Module ADK.

(** The fields of [settings] the service reads ([app/core/config.py]). *)
Record Settings : Type := mkSettings {
  LLM_PROVIDER : string;
  LLM_MODEL : string;
  ANTHROPIC_API_KEY : option string;
  GOOGLE_API_KEY : option string;
  AZURE_API_KEY : option string;
  AZURE_API_BASE : option string;
  AWS_ACCESS_KEY_ID : option string;
  AWS_SECRET_ACCESS_KEY : option string;
  OPENAI_API_KEY : option string
}.

(** The keys of [AGENT_CONFIGS], in order. *)
Definition AGENT_CONFIGS : list string :=
  ["hypothesis_agent"; "experiment_agent"; "code_gen_agent"; "execution_agent";
   "analysis_agent"; "literature_agent"].

(** The model classes [get_llm_model] instantiates. *)
Inductive LlmModel : Type :=
| Claude (model : string)
| Gemini (model : string)
| LiteLlm (model : string).

(** [get_llm_model()] *)
Definition get_llm_model (st : Settings) : LlmModel :=
  let provider := LLM_PROVIDER st in
  let model := LLM_MODEL st in
  if String.eqb provider "anthropic" then Claude model
  else if String.eqb provider "google" || String.eqb provider "gemini" then Gemini model
  else if String.eqb provider "azure" then LiteLlm ("azure/" ++ model)
  else if String.eqb provider "bedrock" then LiteLlm ("bedrock/" ++ model)
  else if String.eqb provider "openai" then LiteLlm model
  else Gemini "gemini-2.0-flash".

(** [get_llm_model_name()] *)
Definition get_llm_model_name (st : Settings) : string :=
  LLM_PROVIDER st ++ "/" ++ LLM_MODEL st.

(** [is_configured()]; [bool(x)] of an [Optional[str]] is [truthy_str x],
    and [bool(a and b)] is [truthy_str a && truthy_str b]. *)
Definition is_configured (st : Settings) : bool :=
  let provider := LLM_PROVIDER st in
  if String.eqb provider "anthropic" then truthy_str (ANTHROPIC_API_KEY st)
  else if String.eqb provider "google" || String.eqb provider "gemini" then
    truthy_str (GOOGLE_API_KEY st)
  else if String.eqb provider "azure" then
    truthy_str (AZURE_API_KEY st) && truthy_str (AZURE_API_BASE st)
  else if String.eqb provider "bedrock" then
    truthy_str (AWS_ACCESS_KEY_ID st) && truthy_str (AWS_SECRET_ACCESS_KEY st)
  else if String.eqb provider "openai" then truthy_str (OPENAI_API_KEY st)
  else false.

(** The [model] an [LlmAgent] is built with: [llm_model if llm_model else
    model_name]. *)
Inductive ModelRef : Type :=
| ModelObj (m : LlmModel)
| ModelName (name : string).

(** An [LlmAgent]; its [instruction] and [description] are copied from
    [AGENT_CONFIGS] and not read by the service. *)
Record LlmAgent : Type := mkLlmAgent {
  la_name : string;
  la_model : ModelRef
}.

(** An [AgentCard] by the fields [build_agent_card] computes from the name. *)
Record AgentCard : Type := mkAgentCard {
  card_name : string;
  card_version : string;
  card_url : string
}.

Definition build_agent_card (agent_name : string) : AgentCard :=
  mkAgentCard agent_name "1.0.0" ("http://localhost:8000/api/v1/agents/" ++ agent_name).

(** [ADKAgentService]: [_agents], [_agent_cards], [_initialized]. *)
Record ADKAgentService : Type := mkService {
  _agents : list (string * LlmAgent);
  _agent_cards : list (string * AgentCard);
  _initialized : bool
}.

(** [ADKAgentService()] *)
Definition new_service : ADKAgentService := mkService [] [] false.

Section Service.

Variable st : Settings.
(** Whether the model constructor of [get_llm_model()] returns (it raises,
    e.g., when the provider's package is missing). *)
Variable llm_model_constructs : bool.
(** Whether [LlmAgent(name=..., model=..., ...)] returns for a config. *)
Variable agent_constructs : string -> ModelRef -> bool.
(** Whether [build_agent_card(name, config)] returns for a config. *)
Variable card_builds : string -> bool.

(** One iteration of the loop over [AGENT_CONFIGS.items()], inside its
    [try]/[except Exception]. *)
Definition init_agent (m : ModelRef) (svc : ADKAgentService) (agent_name : string)
    : ADKAgentService :=
  if agent_constructs agent_name m then
    let agents := assoc_set (_agents svc) agent_name (mkLlmAgent agent_name m) in
    if card_builds agent_name then
      mkService agents (assoc_set (_agent_cards svc) agent_name (build_agent_card agent_name))
        (_initialized svc)
    else mkService agents (_agent_cards svc) (_initialized svc)
  else svc.

(** [initialize()] *)
Definition initialize (svc : ADKAgentService) : ADKAgentService :=
  if _initialized svc then svc
  else
    let model_name := get_llm_model_name st in
    let m := if llm_model_constructs then ModelObj (get_llm_model st) else ModelName model_name in
    let svc' := fold_left (init_agent m) AGENT_CONFIGS svc in
    mkService (_agents svc') (_agent_cards svc') true.

(** [get_agent(agent_name)]: the service after its lazy initialisation and
    the agent. *)
Definition get_agent (svc : ADKAgentService) (agent_name : string)
    : ADKAgentService * option LlmAgent :=
  let svc' := if _initialized svc then svc else initialize svc in
  (svc', assoc_get (_agents svc') agent_name).

(** [_build_prompt(skill_name, input_data)]: [template.format] on the
    input's keys
    may raise an exception other than the [KeyError] it handles. *)
Variable _build_prompt : string -> Dict -> Res string.
(** The [Runner] part of [call_agent]: the text of the events the agent
    answers with, or the exception it raises. *)
Variable run_agent : LlmAgent -> string -> Res string.
(** [str(e)] *)
Variable exn_str : PyExn -> string.

(** [await call_agent(agent_name, skill_name, input_data)] *)
Definition call_agent (svc : ADKAgentService) (agent_name skill_name : string)
    (input_data : Dict) : ADKAgentService * Dict :=
  let svc1 := if _initialized svc then svc else initialize svc in
  let (svc2, agent) := get_agent svc1 agent_name in
  match agent with
  | None =>
      (svc2, [("status", VStr "error");
              ("error", VStr ("Agent " ++ agent_name ++ " not found"));
              ("raw_output", VStr ("# Error" ++ A2A.nl ++ A2A.nl ++ "Agent " ++ agent_name ++ " not found"))])
  | Some a =>
      let attempt :=
        match _build_prompt skill_name input_data with
        | Raise e => Raise e
        | Ok prompt => run_agent a prompt
        end in
      match attempt with
      | Ok raw_output =>
          (svc2, [("status", VStr "success");
                  ("raw_output", VStr raw_output);
                  ("agent_name", VStr agent_name);
                  ("skill_name", VStr skill_name);
                  ("model_used", VStr (get_llm_model_name st))])
      | Raise e =>
          (svc2, [("status", VStr "error");
                  ("error", VStr (exn_str e));
                  ("raw_output", VStr ("# Error" ++ A2A.nl ++ A2A.nl ++ "Failed to execute " ++
                                       skill_name ++ ": " ++ exn_str e))])
      end
  end.

(** The global [adk_agent_service] as [A2AAgentClient] calls it.  Its only
    state change is its one-time [initialize()], so it is the service [svc]
    once initialised: [initialize()] returns, [get_agent] looks up the
    initialised agents, and [call_agent] returns its dict. *)
Definition adk_env (svc : ADKAgentService) : A2A.AdkService :=
  let svc' := initialize svc in
  A2A.mkAdkService (Ok tt)
    (fun name => Ok (match assoc_get (_agents svc') name with Some _ => true | None => false end))
    (Ok (is_configured st))
    (fun name skill input => Ok (VDict (snd (call_agent svc' name skill input)))).

End Service.

End ADK.

(** ** Orchestrator set-up, single-agent runs and tear-down
    ([SessionOrchestrator.initialize], [execute_single_agent], [close]) *)

(** The orchestrator's fields other than [db] and [tasks]. *)
Record Orchestrator : Type := mkOrchestrator {
  o_session_id : string;
  o_user_id : string;
  o_session : option SessionObj;
  o_session_agents : list SessionAgentRow;
  agent_clients : list (string * A2A.A2AAgentClient)
}.

(** [SessionOrchestrator(db, session_id, user_id)] *)
Definition new_orchestrator (session_id user_id : string) : Orchestrator :=
  mkOrchestrator session_id user_id None [] [].

(** A row of [cells]. *)
Record Cell : Type := mkCell {
  cell_id : string;
  cell_project_id : string;
  cell_type : string;
  cell_content : Val;
  cell_metadata : Dict;
  cell_created_by : string
}.

(** A [SessionMemory] the orchestrator adds; its content is the agent's
    value as it comes. *)
Record OrchMemory : Type := mkOrchMemory {
  om_session_id : string;
  om_project_id : string;
  om_memory_type : string;
  om_content : Val;
  om_memory_metadata : Dict
}.

(** What [execute_single_agent] writes: cells, session cells, memories, and
    the events it sends through [ws_manager] ([_emit_event] logs and drops
    an exception of the send). *)
Record Store : Type := mkStore {
  st_cells : list Cell;
  st_session_cells : list SessionCellRow;
  st_memories : list OrchMemory;
  st_events : list (string * Dict)
}.

Section Orchestration.

(** The ADK service the clients' [initialize()] calls. *)
Variable env : A2A.AdkService.
(** [await client.call_skill(skill_name, input_data)] *)
Variable call : A2A.A2AAgentClient -> string -> Dict -> Res Dict.
(** [json.dumps(result, indent=2)] *)
Variable json_dumps : Dict -> string.
(** [datetime.utcnow().isoformat()] *)
Variable timestamp : string.
(** [str(e)] *)
Variable exn_str : PyExn -> string.
(** The id the database gives the [n]-th cell on [flush()]. *)
Variable cell_uuid : nat -> string.

(** The rows of the join join of [SessionAgent] and [Agent] of [initialize()]. *)
Definition agent_rows (session_id : string) (db : Db) : list (SessionAgentRow * Agent) :=
  flat_map (fun sa =>
      if String.eqb (sa_session_id sa) session_id && sa_is_enabled sa then
        map (fun a => (sa, a))
          (filter (fun a => String.eqb (a_id a) (sa_agent_id sa) && a_is_active a) (db_agents db))
      else [])
    (db_session_agents db).

(** One iteration of the client loop, inside its [try]/[except Exception]. *)
Definition init_client (clients : list (string * A2A.A2AAgentClient))
    (row : SessionAgentRow * Agent) : list (string * A2A.A2AAgentClient) :=
  let a := snd row in
  match A2A.initialize env (A2A.new_client (a_name a) (a_service_endpoint a)) with
  | Ok client => assoc_set clients (a_id a) client
  | Raise _ => clients
  end.

(** [await initialize()] *)
Definition initialize (o : Orchestrator) (db : Db) : Res Orchestrator :=
  match find (fun s => String.eqb (so_id s) (o_session_id o)) (db_sessions db) with
  | None => Raise (ValueError ("Session " ++ o_session_id o ++ " not found"))
  | Some s =>
      let rows := agent_rows (o_session_id o) db in
      Ok (mkOrchestrator (o_session_id o) (o_user_id o) (Some s) (map fst rows)
            (fold_left init_client rows (agent_clients o)))
  end.

(** [await close()] *)
Definition close (o : Orchestrator) : Orchestrator :=
  mkOrchestrator (o_session_id o) (o_user_id o) (o_session o) (o_session_agents o)
    (map (fun kc => (fst kc, A2A.close (snd kc))) (agent_clients o)).

Definition _emit_event (st : Store) (event_type : string) (data : Dict) : Store :=
  mkStore (st_cells st) (st_session_cells st) (st_memories st)
    (st_events st ++ [(event_type, data)])%list.

(** [self.session.project_id] raises [AttributeError] when [self.session]
    is [None]. *)
Definition session_project_id (o : Orchestrator) : Res string :=
  match o_session o with
  | Some s => Ok (so_project_id s)
  | None => Raise (OtherException "AttributeError: 'NoneType' object has no attribute 'project_id'")
  end.

(** The [cell_type] and [cell_content] of [_create_cell_from_result]. *)
Definition cell_of_result (result : Dict) : string * Val :=
  match dict_get result "raw_output" with
  | Some v => ("markdown", v)
  | None =>
      match dict_get result "code" with
      | Some v => ("code", v)
      | None => ("markdown", VStr (json_dumps result))
      end
  end.

(** [await _create_cell_from_result(agent, skill_name, result)] *)
Definition _create_cell_from_result (o : Orchestrator) (st : Store) (agent : Agent)
    (skill_name : string) (result : Dict) : Res Store :=
  let (cty, content) := cell_of_result result in
  match session_project_id o with
  | Raise e => Raise e
  | Ok project_id =>
      let cid := cell_uuid (length (st_cells st)) in
      let cell := mkCell cid project_id cty content
                    [("created_by", VStr "agent"); ("agent_id", VStr (a_id agent));
                     ("agent_name", VStr (a_name agent)); ("skill_name", VStr skill_name)]
                    (o_user_id o) in
      let session_cell := mkSessionCellRow (o_session_id o) cid 0 (Some (a_name agent)) in
      let st' := mkStore (st_cells st ++ [cell])%list (st_session_cells st ++ [session_cell])%list
                   (st_memories st) (st_events st) in
      Ok (_emit_event st' "cell_created"
            [("session_id", VStr (o_session_id o)); ("cell_id", VStr cid);
             ("agent_name", VStr (a_name agent)); ("cell_type", VStr cty);
             ("timestamp", VStr timestamp)])
  end.

(** The [content] of [_create_memory_from_result]. *)
Definition memory_content (agent : Agent) (skill_name : string) (result : Dict) : Val :=
  match dict_get result "raw_output" with
  | Some v => v
  | None => VStr ("Agent " ++ a_display_name agent ++ " executed skill '" ++ skill_name ++ "'")
  end.

(** [await _create_memory_from_result(agent, skill_name, result)] *)
Definition _create_memory_from_result (o : Orchestrator) (st : Store) (agent : Agent)
    (skill_name : string) (result : Dict) : Res Store :=
  let content := memory_content agent skill_name result in
  match session_project_id o with
  | Raise e => Raise e
  | Ok project_id =>
      let memory := mkOrchMemory (o_session_id o) project_id "result" content
                      [("agent_id", VStr (a_id agent)); ("agent_name", VStr (a_name agent));
                       ("skill_name", VStr skill_name); ("timestamp", VStr timestamp)] in
      Ok (mkStore (st_cells st) (st_session_cells st) (st_memories st ++ [memory])%list
            (st_events st))
  end.

(** [await execute_single_agent(agent_id, skill_name, input_data)] *)
Definition execute_single_agent (o : Orchestrator) (db : Db) (st : Store)
    (agent_id skill_name : string) (input_data : Dict) : Res Dict * Store :=
  match assoc_get (agent_clients o) agent_id with
  | None => (Raise (ValueError ("Agent " ++ agent_id ++ " not available")), st)
  | Some client =>
      match find (fun a => String.eqb (a_id a) agent_id) (db_agents db) with
      | None => (Raise (ValueError ("Agent " ++ agent_id ++ " not found")), st)
      | Some agent =>
          let st1 := _emit_event st "agent_started"
                       [("session_id", VStr (o_session_id o)); ("agent_id", VStr agent_id);
                        ("agent_name", VStr (a_name agent));
                        ("agent_display_name", VStr (a_display_name agent));
                        ("skill_name", VStr skill_name); ("timestamp", VStr timestamp)] in
          let on_error (e : PyExn) (st' : Store) : Res Dict * Store :=
            (Raise e, _emit_event st' "agent_error"
                        [("session_id", VStr (o_session_id o)); ("agent_id", VStr agent_id);
                         ("agent_name", VStr (a_name agent)); ("skill_name", VStr skill_name);
                         ("error", VStr (exn_str e)); ("timestamp", VStr timestamp)]) in
          match call client skill_name input_data with
          | Raise e => on_error e st1
          | Ok result =>
              let st2 := _emit_event st1 "agent_completed"
                           [("session_id", VStr (o_session_id o)); ("agent_id", VStr agent_id);
                            ("agent_name", VStr (a_name agent)); ("skill_name", VStr skill_name);
                            ("timestamp", VStr timestamp)] in
              match _create_cell_from_result o st2 agent skill_name result with
              | Raise e => on_error e st2
              | Ok st3 =>
                  match _create_memory_from_result o st3 agent skill_name result with
                  | Raise e => on_error e st3
                  | Ok st4 => (Ok result, st4)
                  end
              end
          end
      end
  end.

End Orchestration.

(** [client.call_skill] as the orchestrator reads it: the result is a dict
    ([Dict[str, Any]]); any other value is outside the modelled code. *)
Definition client_call (py_str : Val -> string) (env : A2A.AdkService)
    (c : A2A.A2AAgentClient) (skill_name : string) (input_data : Dict) : Res Dict :=
  match A2A.call_skill py_str env c skill_name input_data with
  | Ok (VDict d) => Ok d
  | Ok _ => Raise (OtherException "TypeError")
  | Raise e => Raise e
  end.

(** The agent names [app/core/seeds.py] stores. *)
Definition seeded_agent_names : list string :=
  ["hypothesis-agent"; "experiment-agent"; "code-gen-agent"; "execution-agent";
   "analysis-agent"; "literature-agent"].

(** [b] is not newer than [a]: the order of [order_by(created_at.desc())]. *)
Definition newer_first (a b : SessionObj) : Prop := so_created_at b <= so_created_at a.

(** ** Concrete inputs *)

(** [getattr(x, name, None)] for a [name] that is no attribute of [x]'s type,
    as for the planner's segments ["result"] and ["code"] on [None]. *)
Definition getattr_none (_ : Val) (_ : string) : Val := VNone.

(** [str(x)] for the string values the examples pass. *)
Definition str_of_text (v : Val) : string :=
  match v with VStr s => s | _ => EmptyString end.

(** An agent that answers every call. *)
Definition agent_ok (aid skill : string) (input : Dict) : Res Val :=
  Ok (VDict [("status", VStr "success"); ("raw_output", VStr skill)]).

(** Agents that answer, except the one with id [bad], whose client is
    missing: [execute_single_agent] raises [ValueError]. *)
Definition agent_fails (bad : string) (aid skill : string) (input : Dict) : Res Val :=
  if String.eqb aid bad then Raise (ValueError ("Agent " ++ aid ++ " not available"))
  else agent_ok aid skill input.

(** Task A and task B, where B depends on A. *)
Definition task_A : AgentTask :=
  new_AgentTask "task_1" "agent_a" "hypothesis_agent" "generate_hypotheses"
    [("literature_summary", VStr "R")] [].
Definition task_B : AgentTask :=
  new_AgentTask "task_2" "agent_b" "experiment_agent" "design_experiment"
    [("hypothesis", VStr "{{task_1.result}}")] ["task_1"].

Definition rows_hyp_analysis : list (string * string) :=
  [("hypothesis_agent", "agent_h"); ("analysis_agent", "agent_n")].

Definition rows_hyp_only : list (string * string) := [("hypothesis_agent", "agent_h")].

(** An ADK service that is importable, knows every agent and has credentials. *)
Definition adk_ok : A2A.AdkService :=
  A2A.mkAdkService (Ok tt) (fun _ => Ok true) (Ok true)
    (fun name skill _ => Ok (VDict [("status", VStr "success"); ("raw_output", VStr skill)])).

(** An ADK service whose agent calls raise. *)
Definition adk_call_raises : A2A.AdkService :=
  A2A.mkAdkService (Ok tt) (fun _ => Ok true) (Ok true)
    (fun _ _ _ => Raise (OtherException "connection refused")).

(** The result map after a hypothesis task answered. *)
Definition results_hyp : Dict :=
  [("task_1", VDict [("status", VStr "success"); ("raw_output", VStr "generate_hypotheses")])].

(** Session tables of one project [p1]: a failed session [s1] with two
    memories (one of them empty) and an archived session [s2]; the project
    enables the hypothesis agent and disables the active system agent. *)
Definition agent_sys : Agent :=
  mkAgent "ag_sys" "literature_agent" "Literature Review Agent" None None true true.
Definition agent_hyp : Agent :=
  mkAgent "ag_h" "hypothesis_agent" "Hypothesis Agent" None None true false.
Definition session_failed : SessionObj :=
  mkSessionObj "s1" "p1" "Demo" None "failed" (Some "R") "u1" 5 None.
Definition session_archived : SessionObj :=
  mkSessionObj "s2" "p1" "Old" None "archived" None "u2" 3 (Some 4).
Definition db_demo : Db :=
  mkDb [session_failed; session_archived]
    [mkMemoryRow (mkSessionMemory "s1" "p1" "result" "first") false;
     mkMemoryRow (mkSessionMemory "s1" "p1" "insight" EmptyString) false;
     mkMemoryRow (mkSessionMemory "s2" "p1" "result" "old") true]
    [mkSessionCellRow "s1" "c1" 0 (Some "hypothesis_agent")]
    [mkSessionAgentRow "s1" "ag_h" true None]
    [mkProjectAgentRow "p1" "ag_h" true None; mkProjectAgentRow "p1" "ag_sys" false None]
    [agent_hyp; agent_sys] [].

(** Settings with credentials for Anthropic, and settings naming a
    provider the service does not know. *)
Definition settings_anthropic : ADK.Settings :=
  ADK.mkSettings "anthropic" "claude-sonnet-4-20250514" (Some "sk-test") None None None None None None.
Definition settings_mistral : ADK.Settings :=
  ADK.mkSettings "mistral" "mistral-large" None None None None None None None.

(** Every constructor returns; the prompt is the skill name and the agent
    echoes it. *)
Definition constructs_all (_ : string) (_ : ADK.ModelRef) : bool := true.
Definition builds_all (_ : string) : bool := true.
Definition prompt_of_skill (skill_name : string) (_ : Dict) : Res string := Ok skill_name.
Definition run_echo (_ : ADK.LlmAgent) (prompt : string) : Res string := Ok prompt.

(** [str(e)] *)
Definition exn_message (e : PyExn) : string :=
  match e with
  | RuntimeError m | ValueError m | OtherException m => m
  | DeadlockError _ => "Task dependency deadlock detected"
  end.

Definition json_text (_ : Dict) : string := "{}".
Definition cell_ids (n : nat) : string := "cell-" ++ nat_str n.
Definition store_empty : Store := mkStore [] [] [] [].

(** An orchestrator of session [s1] with a stub client for the hypothesis
    agent. *)
Definition client_hyp : A2A.A2AAgentClient := A2A.mkClient "hypothesis_agent" None true false false.
Definition orch_demo : Orchestrator :=
  mkOrchestrator "s1" "u1" (Some session_failed) [mkSessionAgentRow "s1" "ag_h" true None]
    [("ag_h", client_hyp)].

(** ** Properties *)

(** *** Resolver *)

Lemma dict_get_resolve :
  forall g input results key,
    dict_get (_resolve_placeholders g input results) key =
    option_map (resolve_value g results) (dict_get input key).
Proof.
  intros g input results key. induction input as [|[k v] input IH]; simpl.
  - reflexivity.
  - destruct (String.eqb key k); [reflexivity | exact IH].
Qed.

Lemma resolve_value_literal :
  forall g results ph,
    is_placeholder (VStr ph) = true ->
    navigate g (VDict results) (ref_parts ph) = VNone ->
    resolve_value g results (VStr ph) = VStr ph.
Proof.
  intros g results ph Hph Hnav. unfold resolve_value. rewrite Hph, Hnav.
  reflexivity.
Qed.

Lemma navigate_none :
  forall g ps, (forall p, In p ps -> g VNone p = VNone) -> navigate g VNone ps = VNone.
Proof.
  intros g ps. induction ps as [|p ps IH]; intros H; simpl.
  - reflexivity.
  - rewrite H by (left; reflexivity). apply IH. intros q Hq. apply H. right. exact Hq.
Qed.

(** *** Executor: one wave *)

Lemma exec_step_dispatches :
  forall g esa w st t,
    In t (st_tasks st) -> is_ready (st_completed st) t = true ->
    exists st',
      exec_step g esa w st = Ok st' /\
      In (w, t, _resolve_placeholders g (input_data t) (st_results st)) (st_log st') /\
      In (settle t (esa (agent_id t) (skill_name t)
                      (_resolve_placeholders g (input_data t) (st_results st))))
         (st_tasks st').
Proof.
  intros g esa w st t Hin Hready.
  assert (Hf : In t (filter (is_ready (st_completed st)) (st_tasks st)))
    by (apply filter_In; split; assumption).
  unfold exec_step.
  destruct (filter (is_ready (st_completed st)) (st_tasks st)) as [|r rs] eqn:Hready_eq.
  - destruct Hf.
  - destruct (process_results _ _ _) as [results' completed'].
    eexists. split; [reflexivity|]. cbn [st_log st_tasks]. split.
    + apply in_or_app. right. apply in_map_iff. exists t. split; [reflexivity|].
      exact Hf.
    + apply in_map_iff. exists t. rewrite Hready. split; [reflexivity | exact Hin].
Qed.

(** [C5] A placeholder whose referenced task is in the result map but whose
    field path navigates to no value ([None]) is bound to the literal
    placeholder string; resolution does not raise, and the task is still
    dispatched in its wave: [execute_single_agent] receives the resolved
    input and alone decides the task's outcome. *)
Theorem resolve_unnavigable_path_keeps_literal :
  forall g esa w st t key ph tid rest,
    In t (st_tasks st) -> is_ready (st_completed st) t = true ->
    dict_get (input_data t) key = Some (VStr ph) ->
    is_placeholder (VStr ph) = true ->
    ref_parts ph = tid :: rest -> dict_get (st_results st) tid <> None ->
    navigate g (VDict (st_results st)) (ref_parts ph) = VNone ->
    exists st' resolved,
      exec_step g esa w st = Ok st' /\
      In (w, t, resolved) (st_log st') /\
      dict_get resolved key = Some (VStr ph) /\
      In (settle t (esa (agent_id t) (skill_name t) resolved)) (st_tasks st').
Proof.
  intros g esa w st t key ph tid rest Hin Hready Hkey Hph _ _ Hnav.
  destruct (exec_step_dispatches g esa w st t Hin Hready) as (st' & Hstep & Hlog & Htask).
  exists st', (_resolve_placeholders g (input_data t) (st_results st)).
  split; [exact Hstep|]. split; [exact Hlog|]. split; [|exact Htask].
  rewrite dict_get_resolve, Hkey. cbn [option_map]. rewrite resolve_value_literal; auto.
Qed.

Lemma resolve_unnavigable_path_keeps_literal_witness :
  exists st' resolved,
    exec_step getattr_none agent_ok 0
      (mkExecState [task_A; task_B] [("task_1", VDict [("raw_output", VStr "h")])] ["task_1"] [])
      = Ok st' /\
    In (0, task_B, resolved) (st_log st') /\
    dict_get resolved "hypothesis" = Some (VStr "{{task_1.result}}") /\
    In (settle task_B (agent_ok (agent_id task_B) (skill_name task_B) resolved)) (st_tasks st').
Proof.
  apply (resolve_unnavigable_path_keeps_literal getattr_none agent_ok 0
           (mkExecState [task_A; task_B] [("task_1", VDict [("raw_output", VStr "h")])]
              ["task_1"] [])
           task_B "hypothesis" "{{task_1.result}}" "task_1" ["result"]).
  - simpl. right. left. reflexivity.
  - reflexivity.
  - reflexivity.
  - reflexivity.
  - reflexivity.
  - simpl. discriminate.
  - reflexivity.
Defined.

(** [C6] corrected: counterexample.  A placeholder naming a task id absent
    from the result map does not raise: the resolver returns the literal. *)
Lemma resolve_absent_task_no_raise_cex :
  _resolve_placeholders getattr_none [("x", VStr "{{task_9}}")] [] =
  [("x", VStr "{{task_9}}")].
Proof. reflexivity. Qed.

(** [C6] corrected: a placeholder whose referenced task id is absent from
    the result map is not an error; the parameter is bound to the literal
    placeholder string, provided [getattr(None, part, None)] is [None] for
    the remaining path segments (as for any non-dunder name). *)
Theorem resolve_absent_task_keeps_literal :
  forall g input results key ph tid rest,
    dict_get input key = Some (VStr ph) ->
    is_placeholder (VStr ph) = true ->
    ref_parts ph = tid :: rest ->
    dict_get results tid = None ->
    (forall p, In p rest -> g VNone p = VNone) ->
    dict_get (_resolve_placeholders g input results) key = Some (VStr ph).
Proof.
  intros g input results key ph tid rest Hkey Hph Hparts Habs Hattr.
  rewrite dict_get_resolve, Hkey. cbn [option_map]. f_equal.
  apply resolve_value_literal; [exact Hph|].
  rewrite Hparts. simpl. unfold dict_get_or_none. rewrite Habs.
  apply navigate_none. exact Hattr.
Qed.

Lemma resolve_absent_task_keeps_literal_witness :
  dict_get (_resolve_placeholders getattr_none [("code", VStr "{{task_3.result.code}}")] [])
    "code" = Some (VStr "{{task_3.result.code}}").
Proof.
  apply (resolve_absent_task_keeps_literal getattr_none _ [] "code"
           "{{task_3.result.code}}" "task_3" ["result"; "code"]);
    try reflexivity.
Defined.

(** *** Planner *)

(** Each planned task carries one of the five input dicts of the source. *)
Lemma plan_task_inputs :
  forall m sid prompt t,
    In t (_plan_research_tasks m sid prompt) ->
    input_data t = [("literature_summary", VStr prompt);
                    ("research_gap", VStr "Identified from prompt");
                    ("domain", VStr "general")] \/
    input_data t = [("hypothesis", VStr "{{task_1.result}}");
                    ("domain", VStr "general")] \/
    input_data t = [("experiment_design", VStr "{{task_2.result}}");
                    ("domain", VStr "general")] \/
    input_data t = [("experiment_id", VStr sid);
                    ("code", VStr "{{task_3.result.code}}")] \/
    input_data t = [("hypothesis", VStr "{{task_1.result}}");
                    ("experiment_design", VStr "{{task_2.result}}");
                    ("execution_results", VStr "{{task_4.result}}");
                    ("domain", VStr "general")].
Proof.
  intros m sid prompt t H. unfold _plan_research_tasks, plan_stage in H.
  destruct (smap_get m "hypothesis_agent");
  destruct (smap_get m "experiment_agent");
  destruct (smap_get m "code_gen_agent");
  destruct (smap_get m "execution_agent");
  destruct (smap_get m "analysis_agent");
  simpl in H;
  repeat (destruct H as [<- | H]; [simpl; tauto |]); contradiction.
Qed.

(** Navigation of [task_k.result...] when no stored result has a top-level
    ["result"] key. *)
Lemma navigate_result_segment :
  forall g results s tid rest,
    ref_parts s = tid :: "result" :: rest ->
    g VNone "result" = VNone ->
    (forall p, In p rest -> g VNone p = VNone) ->
    (forall k v, dict_get results k = Some v ->
                 exists d, v = VDict d /\ dict_get d "result" = None) ->
    navigate g (VDict results) (ref_parts s) = VNone.
Proof.
  intros g results s tid rest Hs Hg Hrest Hres. rewrite Hs. simpl.
  unfold dict_get_or_none. destruct (dict_get results tid) as [v|] eqn:E.
  - destruct (Hres _ _ E) as (d & -> & Hd). simpl. rewrite Hd.
    apply navigate_none. exact Hrest.
  - rewrite Hg. apply navigate_none. exact Hrest.
Qed.

Ltac planned_placeholder tid rest :=
  split;
  [ eexists _, tid, rest; split; reflexivity
  | f_equal; apply resolve_value_literal; [reflexivity |];
    apply (navigate_result_segment _ _ _ tid rest);
    [ reflexivity | assumption
    | simpl; intros ? Hp; first [ destruct Hp as [<- | []]; assumption | destruct Hp ]
    | assumption ] ].

(** [C10] Every placeholder the planner writes has a field path whose second
    segment is ["result"]; the executor stores each agent's raw output under
    its task id, so when no stored output has a top-level ["result"] key,
    every planned placeholder parameter resolves to its own literal text.
    (The prompt and the session id are data, not placeholders.) *)
Theorem planner_placeholders_resolve_to_literal :
  forall g m sid prompt results,
    is_placeholder (VStr prompt) = false ->
    is_placeholder (VStr sid) = false ->
    g VNone "result" = VNone -> g VNone "code" = VNone ->
    (forall k v, dict_get results k = Some v ->
                 exists d, v = VDict d /\ dict_get d "result" = None) ->
    forall t key v,
      In t (_plan_research_tasks m sid prompt) ->
      dict_get (input_data t) key = Some v -> is_placeholder v = true ->
      (exists s tid rest, v = VStr s /\ ref_parts s = tid :: "result" :: rest) /\
      dict_get (_resolve_placeholders g (input_data t) results) key = Some v.
Proof.
  intros g m sid prompt results Hprompt Hsid Hres Hcode Hout t key v Ht Hkey Hv.
  rewrite dict_get_resolve, Hkey. cbn [option_map].
  destruct (plan_task_inputs m sid prompt t Ht) as [E|[E|[E|[E|E]]]];
    rewrite E in Hkey; simpl in Hkey;
    repeat match type of Hkey with
    | context [String.eqb key ?k] => destruct (String.eqb key k)
    end;
    try discriminate; injection Hkey as <-;
    try (simpl in Hv; discriminate); try congruence.
  - planned_placeholder "task_1" (@nil string).
  - planned_placeholder "task_2" (@nil string).
  - planned_placeholder "task_3" ["code"].
  - planned_placeholder "task_1" (@nil string).
  - planned_placeholder "task_2" (@nil string).
  - planned_placeholder "task_4" (@nil string).
Qed.

Lemma planner_placeholders_resolve_to_literal_witness :
  (exists s tid rest, VStr "{{task_4.result}}" = VStr s /\
                      ref_parts s = tid :: "result" :: rest) /\
  dict_get (_resolve_placeholders getattr_none
              (input_data (nth 1 (_plan_research_tasks
                                    (build_agent_map rows_hyp_analysis) "s1" "R") task_A))
              results_hyp) "execution_results" = Some (VStr "{{task_4.result}}").
Proof.
  apply (planner_placeholders_resolve_to_literal getattr_none
           (build_agent_map rows_hyp_analysis) "s1" "R" results_hyp);
    try reflexivity.
  - intros k v H. simpl in H. destruct (String.eqb k "task_1").
    + injection H as <-. eexists. split; reflexivity.
    + discriminate.
  - simpl. right. left. reflexivity.
Defined.

(** *** Agent client *)

(** [C8] [initialize()] of a fresh client never raises: it returns normally
    with [is_initialized] set, and the client is in configured (ADK) mode
    only when the ADK import and set-up, the agent lookup and the
    credentials check all succeeded; any failure leaves it in stub mode. *)
Theorem initialize_never_raises :
  forall env name url,
    exists c,
      A2A.initialize env (A2A.new_client name url) = Ok c /\
      A2A.is_initialized c = true /\
      A2A.agent_name c = name /\ A2A.service_url c = url /\
      (A2A._use_adk c = true ->
       A2A.adk_initialize env = Ok tt /\ A2A.adk_get_agent env name = Ok true /\
       A2A.adk_is_configured env = Ok true).
Proof.
  intros env name url. unfold A2A.initialize, A2A.new_client, A2A.set_adk. simpl.
  destruct (A2A.adk_initialize env) as [[]|e];
  [ destruct (A2A.adk_get_agent env name) as [[|]|e];
    [ destruct (A2A.adk_is_configured env) as [[|]|e] | | ] | ];
  eexists; (split; [reflexivity|]); simpl; repeat split; discriminate.
Qed.

Lemma stub_response_success :
  forall py_str c skill input,
    exists d, A2A._get_stub_response py_str c skill input = VDict d /\
              dict_get d "status" = Some (VStr "success").
Proof.
  intros py_str c skill input. unfold A2A._get_stub_response.
  repeat match goal with
         | |- context [if ?b then _ else _] => destruct b
         end;
  eexists; split; reflexivity.
Qed.

(** [C9] Outside configured (ADK) mode, and in configured mode when the ADK
    call raises, [call_skill] returns normally a dict whose ["status"] is
    ["success"]: an agent call in stub mode never raises. *)
Theorem stub_call_skill_success :
  forall py_str env c skill input,
    (A2A._use_adk c && A2A._adk_service c = false \/
     exists e, A2A.adk_call_agent env (A2A.agent_name c) skill input = Raise e) ->
    exists r,
      A2A.call_skill py_str env c skill input = Ok r /\
      exists d, r = VDict d /\ dict_get d "status" = Some (VStr "success").
Proof.
  intros py_str env c skill input Hmode. unfold A2A.call_skill.
  destruct (stub_response_success py_str c skill input) as (d & Hd & Hs).
  destruct (A2A._use_adk c && A2A._adk_service c) eqn:Emode.
  - destruct Hmode as [Hm | (e & He)]; [discriminate|]. rewrite He.
    eexists. split; [reflexivity|]. exists d. split; assumption.
  - eexists. split; [reflexivity|]. exists d. split; assumption.
Qed.

Lemma stub_call_skill_success_witness :
  exists r,
    A2A.call_skill str_of_text adk_call_raises
      (A2A.mkClient "hypothesis_agent" None true true true)
      "generate_hypotheses" [("literature_summary", VStr "R")] = Ok r /\
    exists d, r = VDict d /\ dict_get d "status" = Some (VStr "success").
Proof.
  apply stub_call_skill_success. right. eexists. reflexivity.
Defined.

(** *** Terminal sessions *)

(** [C7] corrected: counterexample.  A [failed] session accepts a new
    memory, and the workflow runs on an [archived] session and leaves it
    [completed]. *)
Lemma terminal_session_accepts_work_cex :
  fst (create_session_memory (Some (mkSessionRow "s1" "p1" "failed"))
         "s1" "result" "note" []) =
    Created (mkSessionMemory "s1" "p1" "result" "note") /\
  option_map (fun r => snd (fst r))
    (execute_research_workflow getattr_none agent_ok (Some "archived")
       rows_hyp_only "s1" "R") = Some (Some "completed").
Proof. split; reflexivity. Qed.

(** [C7] corrected: adding a memory is rejected only for an [archived]
    session (a [failed] one accepts it), and [execute_research_workflow]
    checks no status: it sets the session [active] and runs exactly as on
    an active session. *)
Theorem session_status_guards :
  (forall s sid mt content store,
     (exists code detail,
        fst (create_session_memory (Some s) sid mt content store) =
        HTTPException code detail) <->
     sess_status s = "archived") /\
  (forall g esa s0 rows sid prompt,
     execute_research_workflow g esa (Some s0) rows sid prompt =
     execute_research_workflow g esa (Some "active") rows sid prompt).
Proof.
  split.
  - intros s sid mt content store. unfold create_session_memory.
    destruct (String.eqb_spec (sess_status s) "archived") as [E|E]; simpl.
    + split; [intros _; exact E | intros _; eexists _, _; reflexivity].
    + split; [intros (code & detail & H); discriminate | intros H; contradiction].
  - intros. reflexivity.
Qed.

(** *** Executor: the [completed_tasks] set *)

Lemma mem_In : forall x l, mem x l = true <-> In x l.
Proof.
  intros x l. unfold mem. rewrite existsb_exists. split.
  - intros (y & Hy & E). apply String.eqb_eq in E. subst. exact Hy.
  - intros H. exists x. split; [exact H | apply String.eqb_refl].
Qed.

Lemma mem_false : forall x l, mem x l = false <-> ~ In x l.
Proof.
  intros x l. rewrite <- mem_In. destruct (mem x l); split; congruence.
Qed.

Lemma In_set_add : forall x y l, In y (set_add x l) <-> y = x \/ In y l.
Proof.
  intros x y l. unfold set_add. destruct (mem x l) eqn:E.
  - apply mem_In in E. split; [tauto | intros [->|H]; assumption].
  - rewrite in_app_iff. simpl. split; intros; intuition.
Qed.

Lemma NoDup_set_add : forall x l, NoDup l -> NoDup (set_add x l).
Proof.
  intros x l H. unfold set_add. destruct (mem x l) eqn:E; [exact H|].
  apply mem_false in E. apply NoDup_app; [exact H | constructor; [intros []|constructor] |].
  intros y Hy [<-|[]]. contradiction.
Qed.

Lemma length_set_add : forall x l, length (set_add x l) <= S (length l).
Proof.
  intros x l. unfold set_add. destruct (mem x l); [lia|].
  rewrite length_app. simpl. lia.
Qed.

(** Adding the ids of a wave one by one. *)
Definition add_all (xs completed : list string) : list string :=
  fold_left (fun c x => set_add x c) xs completed.

Lemma In_add_all :
  forall xs c y, In y (add_all xs c) <-> In y c \/ In y xs.
Proof.
  induction xs as [|x xs IH]; intros c y; simpl.
  - tauto.
  - unfold add_all in *. simpl. rewrite IH, In_set_add.
    split; [intros [[->|H]|H] | intros [H|[->|H]]]; auto.
Qed.

Lemma NoDup_add_all : forall xs c, NoDup c -> NoDup (add_all xs c).
Proof.
  induction xs as [|x xs IH]; intros c H; simpl; [exact H|].
  apply IH. apply NoDup_set_add. exact H.
Qed.

Lemma length_add_all :
  forall xs c, length (add_all xs c) <= length c + length xs.
Proof.
  induction xs as [|x xs IH]; intros c; simpl; [lia|].
  specialize (IH (set_add x c)). pose proof (length_set_add x c). unfold add_all in *. lia.
Qed.

Lemma add_all_grows :
  forall xs c x, NoDup c -> In x xs -> ~ In x c -> length c < length (add_all xs c).
Proof.
  intros xs c x Hc Hx Hnx.
  assert (Hinc : incl (x :: c) (add_all xs c)).
  { intros y [<-|Hy]; apply In_add_all; tauto. }
  apply NoDup_incl_length in Hinc; [simpl in Hinc; lia|].
  constructor; assumption.
Qed.

Lemma process_results_completed :
  forall wave results completed,
    snd (process_results wave results completed) =
    add_all (map (fun p => task_id (fst p)) wave) completed.
Proof.
  induction wave as [|[t r] wave IH]; intros results completed; simpl; [reflexivity|].
  rewrite IH. reflexivity.
Qed.

(** The ids and dependencies of the tasks. *)
Definition shape (t : AgentTask) : string * list string := (task_id t, depends_on t).

Lemma shape_settle : forall t r, shape (settle t r) = shape t.
Proof. intros t [v|e]; reflexivity. Qed.

(** The effect of a wave, spelled out. *)
Lemma exec_step_ok :
  forall g esa w st st',
    exec_step g esa w st = Ok st' ->
    let ready := filter (is_ready (st_completed st)) (st_tasks st) in
    ready <> [] /\
    st_tasks st' = map (fun t => if is_ready (st_completed st) t
                                 then settle t (_execute_task g esa t (st_results st))
                                 else t) (st_tasks st) /\
    st_completed st' = add_all (map task_id ready) (st_completed st) /\
    st_log st' = (st_log st ++ map (fun t => (w, t, _resolve_placeholders g (input_data t)
                                                      (st_results st))) ready)%list.
Proof.
  intros g esa w st st' H ready. unfold exec_step in H. fold ready in H.
  destruct ready as [|r rs] eqn:Hr; [discriminate|].
  pose proof (process_results_completed
                (map (fun t => (t, _execute_task g esa t (st_results st))) (r :: rs))
                (st_results st) (st_completed st)) as Hpc.
  destruct (process_results _ _ _) as [results' completed'].
  injection H as <-. simpl in Hpc. simpl.
  split; [discriminate|]. split; [reflexivity|]. split; [|reflexivity].
  rewrite Hpc. f_equal. rewrite map_map. reflexivity.
Qed.

Lemma exec_step_raise :
  forall g esa w st e, exec_step g esa w st = Raise e ->
    filter (is_ready (st_completed st)) (st_tasks st) = [] /\
    exists pending, e = DeadlockError pending.
Proof.
  intros g esa w st e H. unfold exec_step in H.
  destruct (filter (is_ready (st_completed st)) (st_tasks st)) as [|r rs].
  - injection H as <-. split; [reflexivity | eexists; reflexivity].
  - destruct (process_results _ _ _). discriminate.
Qed.

Lemma map_shape_ids :
  forall l l', map shape l = map shape l' -> map task_id l = map task_id l'.
Proof.
  intros l l' H. apply (f_equal (map fst)) in H. rewrite !map_map in H. exact H.
Qed.

Lemma exec_step_shapes :
  forall g esa w st st', exec_step g esa w st = Ok st' ->
    map shape (st_tasks st') = map shape (st_tasks st).
Proof.
  intros g esa w st st' H. destruct (exec_step_ok g esa w st st' H) as (_ & Ht & _).
  rewrite Ht, map_map. apply map_ext. intros t.
  destruct (is_ready _ t); [apply shape_settle | reflexivity].
Qed.

Lemma in_step_tasks :
  forall g esa w st st' t, exec_step g esa w st = Ok st' -> In t (st_tasks st) ->
    exists t', In t' (st_tasks st') /\ shape t' = shape t.
Proof.
  intros g esa w st st' t H Ht. destruct (exec_step_ok g esa w st st' H) as (_ & Htasks & _).
  rewrite Htasks. eexists. split; [apply in_map; exact Ht|].
  destruct (is_ready _ t); [apply shape_settle | reflexivity].
Qed.

Lemma ready_not_completed :
  forall c t, is_ready c t = true -> ~ In (task_id t) c /\ incl (depends_on t) c.
Proof.
  intros c t H. unfold is_ready in H. apply andb_prop in H as [H1 H2].
  apply negb_true_iff, mem_false in H1. split; [exact H1|].
  intros d Hd. rewrite forallb_forall in H2. apply mem_In, H2, Hd.
Qed.

(** [completed_tasks] is a set of task ids. *)
Definition completed_inv (st : ExecState) : Prop :=
  NoDup (st_completed st) /\ incl (st_completed st) (map task_id (st_tasks st)).

Lemma exec_step_completed_inv :
  forall g esa w st st', completed_inv st -> exec_step g esa w st = Ok st' ->
    completed_inv st' /\ length (st_completed st) < length (st_completed st').
Proof.
  intros g esa w st st' [Hnd Hinc] H.
  pose proof (map_shape_ids _ _ (exec_step_shapes g esa w st st' H)) as Hids.
  destruct (exec_step_ok g esa w st st' H) as (Hne & _ & Hc & _).
  unfold completed_inv. rewrite Hc. split; [split|].
  - apply NoDup_add_all. exact Hnd.
  - rewrite Hids. intros y Hy. apply In_add_all in Hy as [Hy|Hy]; [apply Hinc, Hy|].
    apply in_map_iff in Hy as (t & <- & Ht). apply filter_In in Ht as [Ht _].
    apply in_map. exact Ht.
  - destruct (filter (is_ready (st_completed st)) (st_tasks st)) as [|t rs] eqn:Hr;
      [contradiction|].
    assert (Ht : In t (filter (is_ready (st_completed st)) (st_tasks st)))
      by (rewrite Hr; left; reflexivity).
    apply filter_In in Ht as [_ Ht]. apply ready_not_completed in Ht as [Ht _].
    apply (add_all_grows _ _ (task_id t)); [exact Hnd | left; reflexivity | exact Ht].
Qed.

Lemma completed_inv_length :
  forall st, completed_inv st -> length (st_completed st) <= length (st_tasks st).
Proof.
  intros st [Hnd Hinc]. rewrite <- (length_map task_id (st_tasks st)).
  apply NoDup_incl_length; assumption.
Qed.

(** The loop stops within one more iteration than there are unsettled ids. *)
Lemma exec_loop_some :
  forall g esa fuel w st,
    completed_inv st ->
    length (st_tasks st) < fuel + length (st_completed st) ->
    exists r st', exec_loop g esa fuel w st = Some (r, st').
Proof.
  intros g esa fuel. induction fuel as [|fuel IH]; intros w st Hinv Hlen.
  - pose proof (completed_inv_length st Hinv). lia.
  - simpl. destruct (Nat.ltb _ _) eqn:Hlt; [|eexists _, _; reflexivity].
    destruct (exec_step g esa w st) as [st'|e] eqn:Hstep; [|eexists _, _; reflexivity].
    destruct (exec_step_completed_inv g esa w st st' Hinv Hstep) as [Hinv' Hgrow].
    apply IH; [exact Hinv'|].
    pose proof (f_equal (@length _) (exec_step_shapes g esa w st st' Hstep)) as E.
    rewrite !length_map in E. lia.
Qed.

(** Any invariant of a wave holds where the loop stops; a normal exit has
    settled as many ids as there are tasks, a raise comes from the wave that
    found no ready task. *)
Lemma exec_loop_inv :
  forall g esa (P : nat -> ExecState -> Prop),
    (forall w st st', P w st -> exec_step g esa w st = Ok st' -> P (S w) st') ->
    forall fuel w st r stf,
      P w st -> exec_loop g esa fuel w st = Some (r, stf) ->
      exists wf, P wf stf /\
        match r with
        | Ok _ => length (st_tasks stf) <= length (st_completed stf)
        | Raise e => exec_step g esa wf stf = Raise e
        end.
Proof.
  intros g esa P Hstep fuel. induction fuel as [|fuel IH]; intros w st r stf HP Hloop.
  - discriminate.
  - simpl in Hloop. destruct (Nat.ltb _ _) eqn:Hlt.
    + destruct (exec_step g esa w st) as [st'|e] eqn:Hs.
      * apply (IH (S w) st'); [apply (Hstep w st st'); assumption | exact Hloop].
      * injection Hloop as <- <-. exists w. split; assumption.
    + injection Hloop as <- <-. exists w. split; [exact HP|].
      apply Nat.ltb_ge. exact Hlt.
Qed.

Lemma NoDup_map_inj :
  forall (A B : Type) (f : A -> B) l a b,
    NoDup (map f l) -> In a l -> In b l -> f a = f b -> a = b.
Proof.
  intros A B f l. induction l as [|x l IH]; intros a b Hnd Ha Hb E; [destruct Ha|].
  simpl in Hnd. inversion Hnd as [|y l' Hx Hnd' Heq]. subst.
  destruct Ha as [<-|Ha], Hb as [<-|Hb].
  - reflexivity.
  - exfalso. apply Hx. rewrite E. apply in_map. exact Hb.
  - exfalso. apply Hx. rewrite <- E. apply in_map. exact Ha.
  - apply IH; assumption.
Qed.

(** Every settled id belongs to a task whose dependencies are all settled. *)
Definition deps_settled (st : ExecState) : Prop :=
  forall x, In x (st_completed st) ->
    exists t, In t (st_tasks st) /\ task_id t = x /\ incl (depends_on t) (st_completed st).

Lemma exec_step_deps_settled :
  forall g esa w st st', deps_settled st -> exec_step g esa w st = Ok st' ->
    deps_settled st'.
Proof.
  intros g esa w st st' Hds H x Hx.
  destruct (exec_step_ok g esa w st st' H) as (_ & _ & Hc & _).
  assert (Hgrow : incl (st_completed st) (st_completed st'))
    by (rewrite Hc; intros y Hy; apply In_add_all; left; exact Hy).
  assert (Hlift : forall t, In t (st_tasks st) -> incl (depends_on t) (st_completed st) ->
                    exists t', In t' (st_tasks st') /\ task_id t' = task_id t /\
                               incl (depends_on t') (st_completed st')).
  { intros t Ht Hdeps. destruct (in_step_tasks g esa w st st' t H Ht) as (t' & Ht' & Hsh).
    injection Hsh as Hid Hdp. exists t'. split; [exact Ht'|]. split; [exact Hid|].
    rewrite Hdp. intros d Hd. apply Hgrow, Hdeps, Hd. }
  rewrite Hc in Hx. apply In_add_all in Hx as [Hx|Hx].
  - destruct (Hds x Hx) as (t & Ht & <- & Hdeps). apply Hlift; assumption.
  - apply in_map_iff in Hx as (t & <- & Ht). apply filter_In in Ht as [Ht Hr].
    apply ready_not_completed in Hr as [_ Hdeps]. apply Hlift; assumption.
Qed.

(** [C4] [_execute_tasks] terminates on every finite task list: each wave
    that does not raise settles at least one new task id (so the completed
    set grows strictly, and it is bounded by the number of tasks), the loop
    ends within one more iteration than there are tasks, and it either
    returns normally or raises the dependency-deadlock error; a task list
    with a dependency on a task id that no task has raises that error. *)
Theorem execute_tasks_terminates :
  forall g esa tasks,
    (forall w st st', completed_inv st -> exec_step g esa w st = Ok st' ->
       length (st_completed st) < length (st_completed st')) /\
    exists r st,
      _execute_tasks g esa tasks = Some (r, st) /\
      (r = Ok tt \/ exists pending, r = Raise (DeadlockError pending)) /\
      ((exists t d, In t tasks /\ In d (depends_on t) /\ ~ In d (map task_id tasks)) ->
       exists pending, r = Raise (DeadlockError pending)).
Proof.
  intros g esa tasks. split.
  { intros w st st' Hinv H. apply (exec_step_completed_inv g esa w st st' Hinv H). }
  assert (Hinv0 : completed_inv (init_state tasks)).
  { split; [constructor | intros x []]. }
  destruct (exec_loop_some g esa (S (length tasks)) 0 (init_state tasks) Hinv0)
    as (r & stf & Hrun); [simpl; lia|].
  exists r, stf. split; [exact Hrun|].
  set (P := fun (_ : nat) st =>
              completed_inv st /\ map shape (st_tasks st) = map shape tasks /\
              deps_settled st).
  assert (HP : forall w st st', P w st -> exec_step g esa w st = Ok st' -> P (S w) st').
  { intros w st st' (Hi & Hsh & Hds) H. split; [|split].
    - apply (exec_step_completed_inv g esa w st st' Hi H).
    - rewrite (exec_step_shapes g esa w st st' H). exact Hsh.
    - apply (exec_step_deps_settled g esa w st st' Hds H). }
  assert (HP0 : P 0 (init_state tasks)).
  { split; [exact Hinv0 | split; [reflexivity | intros x []]]. }
  destruct (exec_loop_inv g esa P HP _ _ _ _ _ HP0 Hrun) as (wf & (Hi & Hsh & Hds) & Hend).
  destruct r as [[]|e].
  - split; [left; reflexivity|].
    intros (t & d & Ht & Hd & Hnot). exfalso. apply Hnot.
    destruct Hi as [Hnd Hinc].
    pose proof (map_shape_ids _ _ Hsh) as Hids.
    assert (Hlen : length (map task_id (st_tasks stf)) <= length (st_completed stf))
      by (rewrite length_map; exact Hend).
    assert (Hnd_ids : NoDup (map task_id (st_tasks stf)))
      by (eapply NoDup_incl_NoDup; [exact Hnd | exact Hlen | exact Hinc]).
    assert (Hall : incl (map task_id (st_tasks stf)) (st_completed stf))
      by (apply NoDup_length_incl; assumption).
    assert (Hsh_t : In (shape t) (map shape (st_tasks stf)))
      by (rewrite Hsh; apply in_map; exact Ht).
    apply in_map_iff in Hsh_t as (tf & Hshf & Htf).
    injection Hshf as Hidf Hdepf.
    assert (Hid_in : In (task_id tf) (st_completed stf)) by (apply Hall, in_map, Htf).
    destruct (Hds _ Hid_in) as (t' & Ht' & Hid' & Hdeps').
    assert (tf = t') as <- by (apply (NoDup_map_inj _ _ task_id (st_tasks stf));
                                 [exact Hnd_ids | exact Htf | exact Ht' | symmetry; exact Hid']).
    rewrite <- Hids. apply Hinc, Hdeps'. rewrite Hdepf. exact Hd.
  - apply exec_step_raise in Hend as [_ (pending & ->)].
    split; [right; eexists; reflexivity | intros _; eexists; reflexivity].
Qed.

Lemma execute_tasks_terminates_witness :
  exists r st,
    _execute_tasks getattr_none agent_ok [task_B] = Some (r, st) /\
    (r = Ok tt \/ exists pending, r = Raise (DeadlockError pending)) /\
    ((exists t d, In t [task_B] /\ In d (depends_on t) /\ ~ In d (map task_id [task_B])) ->
     exists pending, r = Raise (DeadlockError pending)).
Proof.
  apply (execute_tasks_terminates getattr_none agent_ok [task_B]).
Defined.

(** *** Executor: dispatch order and final statuses *)

Section Forall2_facts.
Context {A B : Type}.

Lemma Forall2_map_r :
  forall (R R' : A -> B -> Prop) (f : B -> B) l0 l,
    Forall2 R l0 l -> (forall a b, In b l -> R a b -> R' a (f b)) ->
    Forall2 R' l0 (map f l).
Proof.
  intros R R' f l0 l H. induction H as [|a b l0 l Hab H IH]; intros Hf; simpl.
  - constructor.
  - constructor; [apply Hf; [left; reflexivity | exact Hab]|].
    apply IH. intros a' b' Hb'. apply Hf. right. exact Hb'.
Qed.

Lemma Forall2_In_l :
  forall (R : A -> B -> Prop) l0 l a, Forall2 R l0 l -> In a l0 -> exists b, In b l /\ R a b.
Proof.
  intros R l0 l a H. induction H as [|a' b l0 l Hab H IH]; intros Ha; [destruct Ha|].
  destruct Ha as [<-|Ha]; [exists b; split; [left; reflexivity | exact Hab]|].
  destruct (IH Ha) as (b' & Hb' & HR). exists b'. split; [right; exact Hb' | exact HR].
Qed.

Lemma Forall2_In_r :
  forall (R : A -> B -> Prop) l0 l b, Forall2 R l0 l -> In b l -> exists a, In a l0 /\ R a b.
Proof.
  intros R l0 l b H. induction H as [|a b' l0 l Hab H IH]; intros Hb; [destruct Hb|].
  destruct Hb as [<-|Hb]; [exists a; split; [left; reflexivity | exact Hab]|].
  destruct (IH Hb) as (a' & Ha' & HR). exists a'. split; [right; exact Ha' | exact HR].
Qed.
End Forall2_facts.

Lemma Forall2_diag :
  forall (A : Type) (R : A -> A -> Prop) l, (forall a, In a l -> R a a) -> Forall2 R l l.
Proof.
  intros A R l. induction l as [|a l IH]; intros H; constructor.
  - apply H. left. reflexivity.
  - apply IH. intros a' Ha'. apply H. right. exact Ha'.
Qed.

Definition is_pending (t : AgentTask) : bool :=
  match status t with Pending => true | _ => false end.

Definition settled_count (l : list AgentTask) : nat :=
  length (filter (fun t => negb (is_pending t)) l).

Lemma settle_status :
  forall t r, status (settle t r) = Completed \/ status (settle t r) = Failed.
Proof. intros t [v|e]; simpl; auto. Qed.

Lemma settled_count_step :
  forall (c : list string) (f : AgentTask -> AgentTask) l,
    (forall t, In t l -> is_ready c t = true -> is_pending t = true /\ is_pending (f t) = false) ->
    settled_count (map (fun t => if is_ready c t then f t else t) l) =
    settled_count l + length (filter (is_ready c) l).
Proof.
  intros c f l. induction l as [|t l IH]; intros H; [reflexivity|].
  unfold settled_count in *. simpl.
  destruct (is_ready c t) eqn:Hr.
  - destruct (H t (or_introl eq_refl) Hr) as [Hp Hfp]. rewrite Hp, Hfp. simpl.
    rewrite IH; [lia|]. intros t' Ht'. apply H. right. exact Ht'.
  - destruct (is_pending t); simpl; rewrite IH; try lia;
      intros t' Ht'; apply H; right; exact Ht'.
Qed.

Lemma filter_length_le :
  forall (A : Type) (p : A -> bool) l, length (filter p l) <= length l.
Proof.
  intros A p l. induction l as [|a l IH]; simpl; [lia|]. destruct (p a); simpl; lia.
Qed.

Lemma filter_full :
  forall (A : Type) (p : A -> bool) l, length l <= length (filter p l) ->
    forall x, In x l -> p x = true.
Proof.
  intros A p l. induction l as [|a l IH]; intros Hlen x Hx; [destruct Hx|].
  simpl in Hlen. pose proof (filter_length_le A p l) as Hle.
  destruct (p a) eqn:Ha; simpl in Hlen.
  - destruct Hx as [<-|Hx]; [exact Ha | apply IH; [lia | exact Hx]].
  - lia.
Qed.

Lemma task_id_settle : forall t r, task_id (settle t r) = task_id t.
Proof. intros t [v|e]; reflexivity. Qed.

(** How a task object [t] of the current list relates to the task [t0] the
    planner made at its position: untouched, or settled with a logged call. *)
Definition dispatched_rel (w : nat) (st : ExecState) (t0 t : AgentTask) : Prop :=
  t = t0 \/
  (shape t = shape t0 /\ (status t = Completed \/ status t = Failed) /\
   In (task_id t0) (st_completed st) /\
   exists w' r, w' < w /\ In (w', t0, r) (st_log st)).

(** Every logged call came after calls for each of its dependencies. *)
Definition log_ordered (w : nat) (st : ExecState) : Prop :=
  forall w' t r, In (w', t, r) (st_log st) ->
    w' < w /\
    forall d, In d (depends_on t) ->
      exists w'' t'' r'', In (w'', t'', r'') (st_log st) /\ task_id t'' = d /\ w'' < w'.

Definition completed_logged (w : nat) (st : ExecState) : Prop :=
  forall x, In x (st_completed st) ->
    exists w' t' r', In (w', t', r') (st_log st) /\ task_id t' = x /\ w' < w.

Definition dispatch_inv (tasks0 : list AgentTask) (w : nat) (st : ExecState) : Prop :=
  completed_inv st /\
  Forall2 (dispatched_rel w st) tasks0 (st_tasks st) /\
  (forall t, In t (st_tasks st) -> is_pending t = false -> In (task_id t) (st_completed st)) /\
  length (st_completed st) <= settled_count (st_tasks st) /\
  log_ordered w st /\ completed_logged w st.

Lemma exec_step_dispatch_inv :
  forall g esa tasks0 w st st',
    dispatch_inv tasks0 w st -> exec_step g esa w st = Ok st' ->
    dispatch_inv tasks0 (S w) st'.
Proof.
  intros g esa tasks0 w st st' (Hci & HF & Hnp & Hcnt & Hlog & Hcl) H.
  pose proof (exec_step_completed_inv g esa w st st' Hci H) as [Hci' _].
  destruct (exec_step_ok g esa w st st' H) as (_ & Htasks & Hc & Hl).
  set (c := st_completed st) in *.
  assert (Fgrow : incl c (st_completed st'))
    by (rewrite Hc; intros y Hy; apply In_add_all; left; exact Hy).
  assert (Fready_c : forall t, In t (st_tasks st) -> is_ready c t = true ->
                       In (task_id t) (st_completed st')).
  { intros t Ht Hr. rewrite Hc. apply In_add_all. right. apply in_map, filter_In.
    split; assumption. }
  assert (Flog_grow : forall e, In e (st_log st) -> In e (st_log st'))
    by (intros e He; rewrite Hl; apply in_or_app; left; exact He).
  assert (Fready_log : forall t, In t (st_tasks st) -> is_ready c t = true ->
            In (w, t, _resolve_placeholders g (input_data t) (st_results st)) (st_log st')).
  { intros t Ht Hr. rewrite Hl. apply in_or_app. right.
    apply (in_map (fun t => (w, t, _resolve_placeholders g (input_data t) (st_results st)))).
    apply filter_In. split; assumption. }
  assert (Fready_pending : forall t, In t (st_tasks st) -> is_ready c t = true ->
                             is_pending t = true).
  { intros t Ht Hr. destruct (is_pending t) eqn:Hp; [reflexivity|].
    exfalso. apply ready_not_completed in Hr as [Hr _]. apply Hr, Hnp; assumption. }
  split; [exact Hci'|]. split; [|split; [|split; [|split]]].
  - rewrite Htasks. apply (Forall2_map_r (dispatched_rel w st)); [exact HF|].
    intros t0 t Ht [-> | (Hsh & Hst & Hid & w' & r & Hw' & Hin)].
    + destruct (is_ready c t0) eqn:Hr; [|left; reflexivity].
      right. split; [apply shape_settle|]. split; [apply settle_status|].
      split; [apply Fready_c; assumption|].
      eexists _, _. split; [|apply Fready_log; assumption]. lia.
    + assert (Hnr : is_ready c t = false).
      { injection Hsh as Hid' _. unfold is_ready.
        assert (Hm : mem (task_id t) c = true) by (apply mem_In; rewrite Hid'; exact Hid).
        rewrite Hm. reflexivity. }
      rewrite Hnr. right. split; [exact Hsh|]. split; [exact Hst|].
      split; [apply Fgrow, Hid|]. exists w', r. split; [lia | apply Flog_grow, Hin].
  - rewrite Htasks. intros t' Ht' Hp. apply in_map_iff in Ht' as (t & <- & Ht).
    destruct (is_ready c t) eqn:Hr; [rewrite task_id_settle; apply Fready_c; assumption|].
    apply Fgrow, Hnp; assumption.
  - rewrite Htasks.
    rewrite (settled_count_step c (fun t => settle t (_execute_task g esa t (st_results st))));
      [|intros t Ht Hr; split; [apply Fready_pending; assumption|];
        unfold is_pending; destruct (settle_status t (_execute_task g esa t (st_results st)))
          as [E|E]; rewrite E; reflexivity].
    rewrite Hc. pose proof (length_add_all (map task_id (filter (is_ready c) (st_tasks st))) c)
      as Hle. rewrite length_map in Hle. fold c. lia.
  - intros w' t r Hin. rewrite Hl in Hin. apply in_app_or in Hin as [Hin|Hin].
    + destruct (Hlog w' t r Hin) as [Hw' Hdeps]. split; [lia|].
      intros d Hd. destruct (Hdeps d Hd) as (w'' & t'' & r'' & Hin'' & Hid'' & Hw'').
      exists w'', t'', r''. split; [apply Flog_grow, Hin'' | split; assumption].
    + apply in_map_iff in Hin as (t1 & E & Ht1). injection E as <- <- <-.
      apply filter_In in Ht1 as [_ Hr]. apply ready_not_completed in Hr as [_ Hdeps].
      split; [lia|]. intros d Hd.
      destruct (Hcl d (Hdeps d Hd)) as (w'' & t'' & r'' & Hin'' & Hid'' & Hw'').
      exists w'', t'', r''. split; [apply Flog_grow, Hin'' | split; assumption].
  - intros x Hx. rewrite Hc in Hx. apply In_add_all in Hx as [Hx|Hx].
    + destruct (Hcl x Hx) as (w' & t' & r' & Hin & Hid & Hw').
      exists w', t', r'. split; [apply Flog_grow, Hin | split; [exact Hid | lia]].
    + apply in_map_iff in Hx as (t & <- & Ht). apply filter_In in Ht as [Ht Hr].
      eexists _, t, _. split; [apply Fready_log; assumption | split; [reflexivity | lia]].
Qed.

Lemma dispatch_inv_init :
  forall tasks, Forall (fun t => status t = Pending) tasks ->
    dispatch_inv tasks 0 (init_state tasks).
Proof.
  intros tasks Hp. split; [split; [constructor | intros x []]|].
  split; [apply Forall2_diag; intros a _; left; reflexivity|].
  split; [|split; [simpl; lia | split; [intros w t r [] | intros x []]]].
  intros t Ht Hnp. rewrite Forall_forall in Hp. cbn in Ht.
  unfold is_pending in Hnp. rewrite (Hp t Ht) in Hnp. discriminate.
Qed.

(** Once every task id is completed, no task is left pending and every
    planned task has a logged call. *)
Lemma dispatch_inv_final :
  forall tasks w st,
    Forall (fun t => status t = Pending) tasks ->
    dispatch_inv tasks w st ->
    length (st_tasks st) <= length (st_completed st) ->
    Forall (fun t => status t = Completed \/ status t = Failed) (st_tasks st) /\
    (forall t, In t tasks -> exists w' r, In (w', t, r) (st_log st)).
Proof.
  intros tasks w st Hp (Hci & HF & Hnp & Hcnt & Hlog & Hcl) Hend.
  assert (Hall : forall t, In t (st_tasks st) -> negb (is_pending t) = true).
  { apply filter_full. unfold settled_count in Hcnt. lia. }
  rewrite Forall_forall in Hp. split.
  - apply Forall_forall. intros t Ht.
    destruct (Forall2_In_r _ _ _ t HF Ht) as (t0 & Ht0 & [-> | (_ & Hst & _)]); [|exact Hst].
    specialize (Hall t0 Ht). unfold is_pending in Hall. rewrite (Hp t0 Ht0) in Hall.
    discriminate.
  - intros t Ht.
    destruct (Forall2_In_l _ _ _ t HF Ht) as (b & Hb & [-> | (_ & _ & _ & w' & r & _ & Hin)]).
    + specialize (Hall t Hb). unfold is_pending in Hall. rewrite (Hp t Ht) in Hall.
      discriminate.
    + exists w', r. exact Hin.
Qed.

(** [C1] (counterexample) Task B depends on task A and A's agent raises:
    A ends [Failed], yet B is dispatched in the next wave (with the literal
    placeholder as input) and ends [Completed]; the run returns normally. *)
Lemma failed_dependency_dispatches_dependent_cex :
  option_map (fun rs => (fst rs, map status (st_tasks (snd rs)),
                         map (fun e => (fst (fst e), task_id (snd (fst e)), snd e))
                             (st_log (snd rs))))
    (_execute_tasks getattr_none (agent_fails "agent_a") [task_A; task_B]) =
  Some (Ok tt, [Failed; Completed],
        [(0, "task_1", [("literature_summary", VStr "R")]);
         (1, "task_2", [("hypothesis", VStr "{{task_1.result}}")])]).
Proof. vm_compute. reflexivity. Qed.

(** [C1] (amended) On a normal return of [_execute_tasks] from all-pending
    tasks: every task ends [Completed] or [Failed] (there is no skipped
    state), every planned task was dispatched, and each dispatched task's
    dependencies were dispatched in strictly earlier waves, whether they
    then completed or failed. *)
Theorem failed_dependency_does_not_block :
  forall g esa tasks st,
    Forall (fun t => status t = Pending) tasks ->
    _execute_tasks g esa tasks = Some (Ok tt, st) ->
    Forall (fun t => status t = Completed \/ status t = Failed) (st_tasks st) /\
    (forall t, In t tasks -> exists w r, In (w, t, r) (st_log st)) /\
    (forall w t r, In (w, t, r) (st_log st) ->
       forall d, In d (depends_on t) ->
         exists w' t' r', In (w', t', r') (st_log st) /\ task_id t' = d /\ w' < w).
Proof.
  intros g esa tasks st Hp H. unfold _execute_tasks in H.
  destruct (exec_loop_inv g esa (dispatch_inv tasks) (exec_step_dispatch_inv g esa tasks)
              _ _ _ _ _ (dispatch_inv_init tasks Hp) H) as (wf & Hinv & Hend).
  destruct (dispatch_inv_final tasks wf st Hp Hinv Hend) as [Hst Hdisp].
  split; [exact Hst | split; [exact Hdisp|]].
  destruct Hinv as (_ & _ & _ & _ & Hlog & _).
  intros w t r Hin. apply (Hlog w t r Hin).
Qed.

(** A run from the example's pending tasks, through the theorem. *)
Lemma failed_dependency_does_not_block_witness :
  exists st,
    _execute_tasks getattr_none (agent_fails "agent_a") [task_A; task_B] = Some (Ok tt, st) /\
    Forall (fun t => status t = Completed \/ status t = Failed) (st_tasks st) /\
    (forall t, In t [task_A; task_B] -> exists w r, In (w, t, r) (st_log st)) /\
    (forall w t r, In (w, t, r) (st_log st) ->
       forall d, In d (depends_on t) ->
         exists w' t' r', In (w', t', r') (st_log st) /\ task_id t' = d /\ w' < w).
Proof.
  eexists. split; [vm_compute; reflexivity|].
  apply (failed_dependency_does_not_block getattr_none (agent_fails "agent_a") [task_A; task_B]).
  - repeat constructor.
  - vm_compute. reflexivity.
Defined.

(** Every task the planner makes is pending. *)
Lemma plan_all_pending :
  forall m sid prompt, Forall (fun t => status t = Pending) (_plan_research_tasks m sid prompt).
Proof.
  intros m sid prompt. unfold _plan_research_tasks, plan_stage.
  destruct (smap_get m "hypothesis_agent"), (smap_get m "experiment_agent"),
    (smap_get m "code_gen_agent"), (smap_get m "execution_agent"),
    (smap_get m "analysis_agent"); simpl; repeat constructor.
Qed.

(** [C2] (counterexample) The only task's agent raises, the task ends
    [Failed], and the session still ends [completed]. *)
Lemma failed_task_session_completed_cex :
  match execute_research_workflow getattr_none (agent_fails "agent_h") (Some "active")
          rows_hyp_only "s1" "R" with
  | Some (Ok _, s, st) => s = Some "completed" /\ map status (st_tasks st) = [Failed]
  | _ => False
  end.
Proof. vm_compute. split; reflexivity. Qed.

(** [C2] (amended) [execute_research_workflow] always returns.  The session
    ends [completed] exactly when [_execute_tasks] returns normally, where
    every task is [Completed] or [Failed] (failed tasks included), and
    [failed] exactly when the run raises the dependency-deadlock error. *)
Theorem workflow_status_follows_outcome :
  forall g esa session rows sid prompt,
    exists out s st,
      execute_research_workflow g esa session rows sid prompt = Some (out, s, st) /\
      ((s = option_map (fun _ => "completed") session /\ (exists v, out = Ok v) /\
        Forall (fun t => status t = Completed \/ status t = Failed) (st_tasks st)) \/
       (s = option_map (fun _ => "failed") session /\
        exists pending, out = Raise (DeadlockError pending))).
Proof.
  intros g esa session rows sid prompt.
  pose (tasks := _plan_research_tasks (build_agent_map rows) sid prompt).
  assert (Hp : Forall (fun t => status t = Pending) tasks) by apply plan_all_pending.
  assert (Hinv0 : completed_inv (init_state tasks)) by (split; [constructor | intros x []]).
  destruct (exec_loop_some g esa (S (length tasks)) 0 (init_state tasks) Hinv0)
    as (r & st & H); [simpl; lia|].
  assert (E : _execute_tasks g esa tasks = Some (r, st)) by exact H.
  unfold execute_research_workflow. fold tasks. rewrite E.
  destruct r as [[]|e].
  - eexists _, _, st. split; [reflexivity|]. left.
    split; [destruct session; reflexivity|]. split; [eexists; reflexivity|].
    destruct (exec_loop_inv g esa (dispatch_inv tasks) (exec_step_dispatch_inv g esa tasks)
                _ _ _ _ _ (dispatch_inv_init tasks Hp) H) as (wf & Hinv & Hend).
    apply (dispatch_inv_final tasks wf st Hp Hinv Hend).
  - eexists _, _, st. split; [reflexivity|]. right. split; [destruct session; reflexivity|].
    destruct (exec_loop_inv g esa (fun _ _ => True) (fun _ _ _ _ _ => I)
                _ _ _ _ _ I H) as (wf & _ & Hend).
    destruct (exec_step_raise g esa wf st e Hend) as [_ [pending ->]].
    exists pending. reflexivity.
Qed.

(** [C3] (counterexample) With the hypothesis and analysis agents only, the
    run is aborted by the dependency-deadlock error on [task_2] (the analysis
    task) and the session ends [failed]. *)
Lemma hyp_analysis_roster_completes_cex :
  match execute_research_workflow getattr_none agent_ok (Some "active")
          rows_hyp_analysis "s1" "R" with
  | Some (out, s, st) => out = Raise (DeadlockError ["task_2"]) /\ s = Some "failed"
  | None => False
  end.
Proof. vm_compute. split; reflexivity. Qed.

(** [C3] (amended) When the roster has the hypothesis and analysis agents and
    none of the other three, the planner numbers the analysis task [task_2]
    and makes it depend on [task_1], [task_2] and [task_4].  The hypothesis
    task alone is dispatched, in the first wave, and settles; the analysis
    task is never dispatched and stays pending; the next iteration raises the
    dependency-deadlock error on [task_2] and the session ends [failed]. *)
Theorem hyp_analysis_roster_deadlocks :
  forall g esa session rows sid prompt ha aa,
    smap_get (build_agent_map rows) "hypothesis_agent" = Some ha ->
    smap_get (build_agent_map rows) "experiment_agent" = None ->
    smap_get (build_agent_map rows) "code_gen_agent" = None ->
    smap_get (build_agent_map rows) "execution_agent" = None ->
    smap_get (build_agent_map rows) "analysis_agent" = Some aa ->
    exists st s1,
      execute_research_workflow g esa session rows sid prompt =
        Some (Raise (DeadlockError ["task_2"]), option_map (fun _ => "failed") session, st) /\
      map (fun t => (task_id t, agent_name t, depends_on t, status t)) (st_tasks st) =
        [("task_1", "hypothesis_agent", [], s1);
         ("task_2", "analysis_agent", ["task_1"; "task_2"; "task_4"], Pending)] /\
      (s1 = Completed \/ s1 = Failed) /\
      map (fun e => (fst (fst e), task_id (snd (fst e)))) (st_log st) = [(0, "task_1")].
Proof.
  intros g esa session rows sid prompt ha aa Hh He Hc Hx Ha.
  unfold execute_research_workflow, _plan_research_tasks, plan_stage.
  rewrite Hh, He, Hc, Hx, Ha. cbn.
  match goal with |- context [_execute_task g esa ?t ?prev] =>
    destruct (_execute_task g esa t prev) as [v|e] end; cbn.
  - eexists _, Completed. split; [destruct session; reflexivity|].
    split; [reflexivity | split; [left; reflexivity | reflexivity]].
  - eexists _, Failed. split; [destruct session; reflexivity|].
    split; [reflexivity | split; [right; reflexivity | reflexivity]].
Qed.

(** The hypothesis-and-analysis roster of the example, through the theorem. *)
Lemma hyp_analysis_roster_deadlocks_witness :
  exists st s1,
    execute_research_workflow getattr_none agent_ok (Some "active") rows_hyp_analysis "s1" "R" =
      Some (Raise (DeadlockError ["task_2"]), Some "failed", st) /\
    map (fun t => (task_id t, agent_name t, depends_on t, status t)) (st_tasks st) =
      [("task_1", "hypothesis_agent", [], s1);
       ("task_2", "analysis_agent", ["task_1"; "task_2"; "task_4"], Pending)] /\
    (s1 = Completed \/ s1 = Failed) /\
    map (fun e => (fst (fst e), task_id (snd (fst e)))) (st_log st) = [(0, "task_1")].
Proof.
  apply (hyp_analysis_roster_deadlocks getattr_none agent_ok (Some "active")
           rows_hyp_analysis "s1" "R" "agent_h" "agent_n");
    vm_compute; reflexivity.
Defined.

(** ** Further properties of the session endpoints *)

Lemma substring_length_le :
  forall s n m, String.length (substring n m s) <= m.
Proof.
  induction s as [|c s IH]; intros n m; destruct n, m; simpl; try lia; try apply IH.
  specialize (IH 0 m). lia.
Qed.

Lemma find_replace_session :
  forall (p : SessionObj -> bool) s' l,
    p s' = true -> (forall x, so_id x <> so_id s' -> p x = false) ->
    (exists x, In x l /\ so_id x = so_id s') ->
    find p (replace_session s' l) = Some s'.
Proof.
  intros p s' l Hp Hother. induction l as [|x l IH]; intros (y & Hy & Hid); [destruct Hy|].
  simpl. destruct (String.eqb (so_id x) (so_id s')) eqn:E.
  - rewrite Hp. reflexivity.
  - apply String.eqb_neq in E. rewrite (Hother x E).
    apply IH. destruct Hy as [<-|Hy]; [contradiction|]. exists y. split; assumption.
Qed.

Lemma find_session_spec :
  forall pid sid db s, find_session pid sid db = Some s ->
    In s (db_sessions db) /\ so_id s = sid /\ so_project_id s = pid.
Proof.
  intros pid sid db s H. apply find_some in H as [Hin Hp].
  apply andb_prop in Hp as [H1 H2]. apply String.eqb_eq in H1, H2. auto.
Qed.

(** [X5] A successful [archive_session] found the session in the project with
    a status other than [archived], and stores it back as [archived] with its
    [archived_at].  It keeps every memory row, flags each memory of the
    session as archived and no other, and adds at most one project memory
    (one exactly when [generate_summary] holds), whose content is at most
    10000 characters and whose source is this session. *)
Theorem archive_session_archives :
  forall pid sid gs now iso db s' db',
    archive_session pid sid gs now iso db = (Resp s', db') ->
    (exists s, find_session pid sid db = Some s /\ so_status s <> "archived" /\
       s' = mkSessionObj (so_id s) (so_project_id s) (so_name s) (so_description s)
              "archived" (so_initial_prompt s) (so_created_by s) (so_created_at s)
              (Some now)) /\
    find_session pid sid db' = Some s' /\
    map mr_memory (db_memories db') = map mr_memory (db_memories db) /\
    (forall m, In m (db_memories db') ->
       if memory_of sid m then mr_is_archived m = true else In m (db_memories db)) /\
    exists new,
      db_project_memories db' = (db_project_memories db ++ new)%list /\
      length new = (if gs then 1 else 0) /\
      Forall (fun pm => pm_project_id pm = pid /\ pm_source_session_ids pm = [sid] /\
                        String.length (pm_content pm) <= 10000) new.
Proof.
  intros pid sid gs now iso db s' db' H. unfold archive_session in H.
  destruct (find_session pid sid db) as [s|] eqn:Hf; [|discriminate].
  destruct (String.eqb (so_status s) "archived") eqn:Ha; [discriminate|].
  injection H as <- <-. apply String.eqb_neq in Ha.
  destruct (find_session_spec _ _ _ _ Hf) as (Hin & Hid & Hpid).
  split; [exists s; auto|]. split; [|split; [|split]].
  - unfold find_session. cbn [db_sessions]. apply find_replace_session.
    + cbn [so_id so_project_id].
      apply andb_true_intro. split; apply String.eqb_eq; assumption.
    + intros x Hx. cbn [so_id] in Hx. cbv beta. destruct (String.eqb (so_id x) sid) eqn:E; [|reflexivity].
      apply String.eqb_eq in E. rewrite Hid in Hx. contradiction.
    + exists s. split; [exact Hin | reflexivity].
  - cbn [db_memories]. rewrite map_map. apply map_ext. intros m.
    destruct (memory_of sid m); reflexivity.
  - intros m Hm. cbn [db_memories] in Hm. apply in_map_iff in Hm as (m0 & <- & Hm0).
    destruct (memory_of sid m0) eqn:E; [|rewrite E; exact Hm0].
    unfold memory_of in *. cbn [mr_memory mr_is_archived]. rewrite E. reflexivity.
  - eexists. cbn [db_project_memories]. split; [reflexivity|].
    destruct gs; [|split; [reflexivity | constructor]].
    split; [reflexivity|]. constructor; [|constructor].
    cbn [pm_project_id pm_source_session_ids pm_content].
    split; [reflexivity | split; [reflexivity|]].
    match goal with |- context [if String.eqb ?c "" then _ else _] =>
      destruct (String.eqb c "") end; [simpl; lia | apply substring_length_le].
Qed.

Lemma archive_session_found :
  forall pid sid gs now iso db s' db',
    archive_session pid sid gs now iso db = (Resp s', db') ->
    find_session pid sid db' = Some s' /\ so_status s' = "archived" /\
    so_id s' = sid /\ so_project_id s' = pid.
Proof.
  intros pid sid gs now iso db s' db' H. unfold archive_session in H.
  destruct (find_session pid sid db) as [s|] eqn:Hf; [|discriminate].
  destruct (String.eqb (so_status s) "archived"); [discriminate|].
  injection H as <- <-.
  destruct (find_session_spec _ _ _ _ Hf) as (Hin & Hid & Hpid).
  split; [|split; [reflexivity | split; assumption]].
  unfold find_session. cbn [db_sessions]. apply find_replace_session.
  - cbn [so_id so_project_id]. apply andb_true_intro. split; apply String.eqb_eq; assumption.
  - intros x Hx. cbn [so_id] in Hx. cbv beta.
    destruct (String.eqb (so_id x) sid) eqn:E; [|reflexivity].
    apply String.eqb_eq in E. rewrite Hid in Hx. contradiction.
  - exists s. split; [exact Hin | reflexivity].
Qed.

(** [X6] Once [archive_session] has succeeded, the session refuses more
    work: archiving it again answers 400 ["Session is already archived"] and
    adding a memory answers 400, both leaving the data unchanged. *)
Theorem archived_session_rejects_work :
  forall pid sid gs now iso db s' db',
    archive_session pid sid gs now iso db = (Resp s', db') ->
    (forall gs2 now2 iso2,
       archive_session pid sid gs2 now2 iso2 db' =
         (HttpErr 400 "Session is already archived", db')) /\
    (forall mt content store,
       create_session_memory (Some (session_row s')) sid mt content store =
         (HTTPException 400 "Cannot add memories to archived session", store)).
Proof.
  intros pid sid gs now iso db s' db' H.
  destruct (archive_session_found _ _ _ _ _ _ _ _ H) as (Hf & Hst & _).
  split.
  - intros gs2 now2 iso2. unfold archive_session. rewrite Hf, Hst. reflexivity.
  - intros mt content store. unfold create_session_memory, session_row. cbn [sess_status].
    rewrite Hst. reflexivity.
Qed.

(** [X3] [update_session] never looks at the current status: for every
    session of the project, archived or failed included, a PATCH with status
    [active] succeeds, and the reopened session accepts new memories. *)
Theorem update_session_reopens :
  forall pid sid db s,
    find_session pid sid db = Some s ->
    exists s' db',
      update_session pid sid (mkSessionUpdate None None (Some (Some ACTIVE))) db =
        (Resp s', db') /\
      so_status s' = "active" /\ find_session pid sid db' = Some s' /\
      forall mt content store,
        create_session_memory (Some (session_row s')) sid mt content store =
          (Created (mkSessionMemory sid pid mt content),
           (store ++ [mkSessionMemory sid pid mt content])%list).
Proof.
  intros pid sid db s Hf. destruct (find_session_spec _ _ _ _ Hf) as (Hin & Hid & Hpid).
  unfold update_session. rewrite Hf. cbn.
  eexists _, _. split; [reflexivity|]. split; [reflexivity|]. split.
  - unfold find_session. cbn [db_sessions set_sessions]. apply find_replace_session.
    + cbn [so_id so_project_id]. apply andb_true_intro. split; apply String.eqb_eq; assumption.
    + intros x Hx. cbn [so_id] in Hx. cbv beta.
      destruct (String.eqb (so_id x) sid) eqn:E; [|reflexivity].
      apply String.eqb_eq in E. rewrite Hid in Hx. contradiction.
    + exists s. split; [exact Hin | reflexivity].
  - intros mt content store. unfold create_session_memory, session_row. cbn. rewrite Hpid.
    reflexivity.
Qed.

(** [X4] A PATCH that sends [null] for [name] or [status] of an existing
    session is not rejected by the endpoint: the commit violates the
    column's NOT NULL constraint, the exception escapes the handler, and the
    session is unchanged. *)
Theorem update_session_null_required_field :
  forall pid sid db s upd,
    find_session pid sid db = Some s ->
    (upd_name upd = Some None \/ upd_status upd = Some None) ->
    update_session pid sid upd db = (Unhandled (OtherException "IntegrityError"), db).
Proof.
  intros pid sid db s upd Hf Hnull. unfold update_session. rewrite Hf.
  destruct upd as [n d st]. cbn [upd_name upd_status] in *.
  destruct Hnull as [-> | ->]; [reflexivity|].
  destruct n as [[n|]|]; reflexivity.
Qed.

(** [X7] [delete_session] answers 404 for a session that is not in the
    project and 403 for a caller who did not create it, changing nothing.
    For its creator it removes the session row and every memory, cell link
    and agent row of the session, and keeps every other row. *)
Theorem delete_session_guards :
  forall pid sid uid db,
    (find_session pid sid db = None ->
       delete_session pid sid uid db = (HttpErr 404 "Session not found", db)) /\
    (forall s, find_session pid sid db = Some s -> so_created_by s <> uid ->
       delete_session pid sid uid db =
         (HttpErr 403 "Only session creator can delete session", db)) /\
    (forall s, find_session pid sid db = Some s -> so_created_by s = uid ->
       exists db', delete_session pid sid uid db = (Resp tt, db') /\
         (forall s0, In s0 (db_sessions db') <-> In s0 (db_sessions db) /\ so_id s0 <> sid) /\
         (forall m, In m (db_memories db') <-> In m (db_memories db) /\ memory_of sid m = false) /\
         (forall c, In c (db_session_cells db') <->
                    In c (db_session_cells db) /\ sc_session_id c <> sid) /\
         (forall a, In a (db_session_agents db') <->
                    In a (db_session_agents db) /\ sa_session_id a <> sid)).
Proof.
  intros pid sid uid db. unfold delete_session. split; [|split].
  - intros Hf. rewrite Hf. reflexivity.
  - intros s Hf Hc. rewrite Hf. apply String.eqb_neq in Hc. rewrite Hc. reflexivity.
  - intros s Hf Hc. destruct (find_session_spec _ _ _ _ Hf) as (_ & Hid & _).
    rewrite Hf, Hc, String.eqb_refl. eexists. split; [reflexivity|]. cbn. rewrite Hid.
    split; [|split; [|split]]; intros x; rewrite filter_In, negb_true_iff;
      try rewrite String.eqb_neq; tauto.
Qed.



Lemma insert_desc_In :
  forall s x l, In x (insert_desc s l) <-> x = s \/ In x l.
Proof.
  intros s x l. induction l as [|s0 l IH]; simpl; [intuition congruence|].
  destruct (Nat.ltb _ _); simpl; [intuition congruence|]. rewrite IH. intuition congruence.
Qed.

Lemma sort_desc_In : forall x l, In x (sort_desc l) <-> In x l.
Proof.
  intros x l. induction l as [|s l IH]; simpl; [tauto|]. rewrite insert_desc_In, IH.
  split; intros [H|H]; auto.
Qed.

Lemma sort_desc_length : forall l, length (sort_desc l) = length l.
Proof.
  assert (Hi : forall s l, length (insert_desc s l) = S (length l)).
  { intros s l. induction l as [|s0 l IH]; simpl; [reflexivity|].
    destruct (Nat.ltb _ _); simpl; [reflexivity | rewrite IH; reflexivity]. }
  intros l. induction l as [|s l IH]; simpl; [reflexivity|]. rewrite Hi, IH. reflexivity.
Qed.

Lemma insert_desc_hd :
  forall a s l, HdRel newer_first a l -> newer_first a s -> HdRel newer_first a (insert_desc s l).
Proof.
  intros a s [|s0 l] Hl Hs; simpl; [constructor; exact Hs|].
  destruct (Nat.ltb _ _); constructor; [exact Hs|]. inversion Hl; assumption.
Qed.

Lemma insert_desc_sorted :
  forall s l, Sorted newer_first l -> Sorted newer_first (insert_desc s l).
Proof.
  intros s l. induction l as [|s0 l IH]; intros H; simpl; [repeat constructor|].
  destruct (Nat.ltb (so_created_at s0) (so_created_at s)) eqn:Hlt.
  - apply Nat.ltb_lt in Hlt. constructor; [exact H|]. constructor. unfold newer_first. lia.
  - apply Nat.ltb_ge in Hlt. apply Sorted_inv in H as [Hl Hhd].
    constructor; [apply IH, Hl|]. apply insert_desc_hd; [exact Hhd|]. exact Hlt.
Qed.

Lemma sort_desc_sorted : forall l, Sorted newer_first (sort_desc l).
Proof.
  induction l as [|s l IH]; simpl; [constructor | apply insert_desc_sorted, IH].
Qed.

Lemma In_firstn_l : forall (A : Type) n l (x : A), In x (firstn n l) -> In x l.
Proof.
  intros A n l x H. rewrite <- (firstn_skipn n l). apply in_or_app. left. exact H.
Qed.

Lemma In_skipn_l : forall (A : Type) n l (x : A), In x (skipn n l) -> In x l.
Proof.
  intros A n l x H. rewrite <- (firstn_skipn n l). apply in_or_app. right. exact H.
Qed.

Lemma skipn_sorted :
  forall (A : Type) (R : A -> A -> Prop) n l, Sorted R l -> Sorted R (skipn n l).
Proof.
  intros A R n. induction n as [|n IH]; intros [|a l] H; simpl; try exact H.
  apply IH. apply Sorted_inv in H as [H _]. exact H.
Qed.

Lemma firstn_sorted :
  forall (A : Type) (R : A -> A -> Prop) n l, Sorted R l -> Sorted R (firstn n l).
Proof.
  intros A R n. induction n as [|n IH]; intros [|a l] H; simpl; try constructor.
  - apply IH. apply Sorted_inv in H as [H _]. exact H.
  - apply Sorted_inv in H as [_ H]. destruct n, l; simpl; try constructor.
    inversion H. assumption.
Qed.

(** [X1] [list_sessions] returns at most [limit] sessions, each of the
    project, in the table, with the status asked for when the filter is a
    non-empty string, newest first, with its memory and cell counts (archived
    memories included).  An empty [status_filter] is no filter.  With
    [skip = 0] and a [limit] no smaller than the table, every session of
    the project with the asked status is listed. *)
Theorem list_sessions_page :
  forall pid f skip limit db,
    length (list_sessions pid f skip limit db) <= limit /\
    Forall (fun e => In (fst (fst e)) (db_sessions db) /\ so_project_id (fst (fst e)) = pid /\
                     (truthy_str f = true -> f = Some (so_status (fst (fst e)))) /\
                     snd (fst e) = count_memories (so_id (fst (fst e))) db /\
                     snd e = count_cells (so_id (fst (fst e))) db)
      (list_sessions pid f skip limit db) /\
    Sorted newer_first (map (fun e => fst (fst e)) (list_sessions pid f skip limit db)) /\
    list_sessions pid (Some "") skip limit db = list_sessions pid None skip limit db /\
    (forall s, In s (db_sessions db) -> so_project_id s = pid ->
       (truthy_str f = true -> f = Some (so_status s)) -> length (db_sessions db) <= limit ->
       In s (map (fun e => fst (fst e)) (list_sessions pid f 0 limit db))).
Proof.
  intros pid f skip limit db.
  set (q := filter (fun s => String.eqb (so_project_id s) pid) (db_sessions db)).
  set (q' := match f with
             | Some v => if truthy_str f then filter (fun s => String.eqb (so_status s) v) q else q
             | None => q end).
  assert (Hl : forall sk lim, list_sessions pid f sk lim db =
             map (fun s => (s, count_memories (so_id s) db, count_cells (so_id s) db))
               (firstn lim (skipn sk (sort_desc q')))) by reflexivity.
  assert (Hq' : forall s, In s q' <-> In s (db_sessions db) /\ so_project_id s = pid /\
                                     (truthy_str f = true -> f = Some (so_status s))).
  { intros s. unfold q', q. destruct f as [v|]; cbn [truthy_str].
    - destruct (negb (String.eqb v "")).
      + rewrite !filter_In, !String.eqb_eq. split.
        * intros [[H1 H2] H3]. repeat split; auto. intros _. rewrite H3. reflexivity.
        * intros (H1 & H2 & H3). specialize (H3 eq_refl). injection H3 as H3. auto.
      + rewrite filter_In, String.eqb_eq. split.
        * intros [H1 H2]. repeat split; auto. discriminate.
        * intros (H1 & H2 & _). auto.
    - rewrite filter_In, String.eqb_eq. split.
      + intros [H1 H2]. repeat split; auto. discriminate.
      + intros (H1 & H2 & _). auto. }
  rewrite !Hl. split; [|split; [|split; [|split]]].
  - rewrite length_map, length_firstn. lia.
  - apply Forall_forall. intros e He. apply in_map_iff in He as (s & <- & Hs). cbn.
    apply In_firstn_l in Hs. apply In_skipn_l in Hs. apply sort_desc_In, Hq' in Hs.
    tauto.
  - rewrite map_map. cbn [fst]. rewrite map_id.
    apply firstn_sorted, skipn_sorted, sort_desc_sorted.
  - reflexivity.
  - intros s Hs Hp Hf Hlen. rewrite map_map. cbn [fst skipn]. rewrite map_id, firstn_all2; [apply sort_desc_In, Hq'; auto|].
    rewrite sort_desc_length. unfold q'.
    assert (length q <= length (db_sessions db)) by apply filter_length_le.
    destruct f as [v|]; [destruct (truthy_str (Some v))|]; try lia.
    pose proof (filter_length_le _ (fun s => String.eqb (so_status s) v) q). lia.
Qed.

(** Witnesses at the demo tables. *)

Lemma archive_session_archives_witness :
  exists s' db', archive_session "p1" "s1" true 7 "t7" db_demo = (Resp s', db') /\
    ((exists s, find_session "p1" "s1" db_demo = Some s /\ so_status s <> "archived" /\
       s' = mkSessionObj (so_id s) (so_project_id s) (so_name s) (so_description s)
              "archived" (so_initial_prompt s) (so_created_by s) (so_created_at s)
              (Some 7)) /\
    find_session "p1" "s1" db' = Some s' /\
    map mr_memory (db_memories db') = map mr_memory (db_memories db_demo) /\
    (forall m, In m (db_memories db') ->
       if memory_of "s1" m then mr_is_archived m = true else In m (db_memories db_demo)) /\
    exists new,
      db_project_memories db' = (db_project_memories db_demo ++ new)%list /\
      length new = 1 /\
      Forall (fun pm => pm_project_id pm = "p1" /\ pm_source_session_ids pm = ["s1"] /\
                        String.length (pm_content pm) <= 10000) new).
Proof.
  do 2 eexists. split; [vm_compute; reflexivity|].
  apply (archive_session_archives "p1" "s1" true 7 "t7" db_demo). vm_compute. reflexivity.
Defined.

Lemma archived_session_rejects_work_witness :
  exists s' db', archive_session "p1" "s1" false 7 "t7" db_demo = (Resp s', db') /\
    ((forall gs2 now2 iso2,
       archive_session "p1" "s1" gs2 now2 iso2 db' =
         (HttpErr 400 "Session is already archived", db')) /\
    (forall mt content store,
       create_session_memory (Some (session_row s')) "s1" mt content store =
         (HTTPException 400 "Cannot add memories to archived session", store))).
Proof.
  do 2 eexists. split; [vm_compute; reflexivity|].
  apply (archived_session_rejects_work "p1" "s1" false 7 "t7" db_demo). vm_compute. reflexivity.
Defined.

Lemma update_session_reopens_witness :
  find_session "p1" "s2" db_demo = Some session_archived /\
  exists s' db',
    update_session "p1" "s2" (mkSessionUpdate None None (Some (Some ACTIVE))) db_demo =
      (Resp s', db') /\
    so_status s' = "active" /\ find_session "p1" "s2" db' = Some s' /\
    forall mt content store,
      create_session_memory (Some (session_row s')) "s2" mt content store =
        (Created (mkSessionMemory "s2" "p1" mt content),
         (store ++ [mkSessionMemory "s2" "p1" mt content])%list).
Proof.
  split; [vm_compute; reflexivity|].
  apply (update_session_reopens "p1" "s2" db_demo session_archived). vm_compute. reflexivity.
Defined.

Lemma update_session_null_required_field_witness :
  update_session "p1" "s1" (mkSessionUpdate (Some None) None None) db_demo =
    (Unhandled (OtherException "IntegrityError"), db_demo).
Proof.
  apply (update_session_null_required_field "p1" "s1" db_demo session_failed).
  - vm_compute. reflexivity.
  - left. reflexivity.
Defined.


(** ** Properties of the ADK service, the client's use of it, and the
    orchestrator's set-up, runs and tear-down *)

Lemma assoc_get_set :
  forall (A : Type) (d : list (string * A)) k v n,
    assoc_get (assoc_set d k v) n = if String.eqb n k then Some v else assoc_get d n.
Proof.
  intros A d k v n. induction d as [|[k' v'] d IH]; simpl.
  - destruct (String.eqb n k); reflexivity.
  - destruct (String.eqb k k') eqn:E; simpl.
    + apply String.eqb_eq in E. subst k'. destruct (String.eqb n k); reflexivity.
    + destruct (String.eqb n k') eqn:E2; [|apply IH].
      apply String.eqb_eq in E2. subst n. rewrite String.eqb_sym, E. reflexivity.
Qed.

Lemma assoc_set_keys :
  forall (A : Type) (d : list (string * A)) k v n,
    In n (map fst (assoc_set d k v)) <-> k = n \/ In n (map fst d).
Proof.
  intros A d k v n. induction d as [|[k' v'] d IH]; simpl; [tauto|].
  destruct (String.eqb k k') eqn:E; simpl.
  - apply String.eqb_eq in E. subst k'. tauto.
  - rewrite IH. tauto.
Qed.

Lemma assoc_get_map :
  forall (A B : Type) (f : A -> B) (d : list (string * A)) k,
    assoc_get (map (fun kc => (fst kc, f (snd kc))) d) k = option_map f (assoc_get d k).
Proof.
  intros A B f d k. induction d as [|[k' v'] d IH]; simpl; [reflexivity|].
  destruct (String.eqb k k'); [reflexivity | exact IH].
Qed.

Lemma existsb_eqb_In : forall n l, existsb (String.eqb n) l = true <-> In n l.
Proof.
  intros n l. rewrite existsb_exists. split.
  - intros (x & Hx & E). apply String.eqb_eq in E. subst. exact Hx.
  - intros H. exists n. split; [exact H | apply String.eqb_refl].
Qed.

Lemma a2a_initialize_ok :
  forall env c, exists c', A2A.initialize env c = Ok c' /\
    A2A.agent_name c' = A2A.agent_name c /\ A2A.service_url c' = A2A.service_url c /\
    A2A.is_initialized c' = true.
Proof.
  intros env c. unfold A2A.initialize. eexists. split; [reflexivity|].
  cbn [A2A.agent_name A2A.service_url A2A.is_initialized].
  destruct (A2A.adk_initialize env); [|repeat split].
  destruct (A2A.adk_get_agent env (A2A.agent_name c)) as [[|]|]; [|repeat split..].
  destruct (A2A.adk_is_configured env); repeat split.
Qed.

(** What a fresh client learns from [initialize()] against the service. *)
Lemma a2a_initialize_adk_env :
  forall st lmc ac cb bp run es svc name url c,
    A2A.initialize (ADK.adk_env st lmc ac cb bp run es svc) (A2A.new_client name url) = Ok c ->
    let found := match assoc_get (ADK._agents (ADK.initialize st lmc ac cb svc)) name with
                 | Some _ => true | None => false end in
    c = A2A.mkClient name url true found (found && ADK.is_configured st).
Proof.
  intros st lmc ac cb bp run es svc name url c H found.
  unfold A2A.initialize, ADK.adk_env in H. cbn in H. injection H as <-.
  unfold found. destruct (assoc_get _ name); reflexivity.
Qed.

Lemma fold_init_agent_get :
  forall ac cb m l svc n,
    assoc_get (ADK._agents (fold_left (ADK.init_agent ac cb m) l svc)) n =
      if existsb (String.eqb n) l && ac n m then Some (ADK.mkLlmAgent n m)
      else assoc_get (ADK._agents svc) n.
Proof.
  intros ac cb m l. induction l as [|x l IH]; intros svc n; simpl; [reflexivity|].
  rewrite IH. unfold ADK.init_agent.
  destruct (String.eqb n x) eqn:E.
  - apply String.eqb_eq in E. subst x. cbn [orb andb].
    destruct (ac n m) eqn:Hac.
    + rewrite andb_true_r. destruct (existsb (String.eqb n) l); [reflexivity|].
      destruct (cb n); cbn [ADK._agents]; rewrite assoc_get_set, String.eqb_refl; reflexivity.
    + rewrite andb_false_r. reflexivity.
  - cbn [orb]. destruct (existsb (String.eqb n) l && ac n m); [reflexivity|].
    destruct (ac x m); [|reflexivity].
    destruct (cb x); cbn [ADK._agents]; rewrite assoc_get_set, E; reflexivity.
Qed.

Lemma fold_init_agent_cards :
  forall ac cb m l svc n,
    assoc_get (ADK._agent_cards (fold_left (ADK.init_agent ac cb m) l svc)) n =
      if existsb (String.eqb n) l && ac n m && cb n then Some (ADK.build_agent_card n)
      else assoc_get (ADK._agent_cards svc) n.
Proof.
  intros ac cb m l. induction l as [|x l IH]; intros svc n; simpl; [reflexivity|].
  rewrite IH. unfold ADK.init_agent.
  destruct (String.eqb n x) eqn:E.
  - apply String.eqb_eq in E. subst x. cbn [orb andb].
    destruct (ac n m) eqn:Hac, (cb n) eqn:Hcb; rewrite ?andb_true_r, ?andb_false_r;
      destruct (existsb (String.eqb n) l); cbn [ADK._agent_cards andb]; try reflexivity;
      rewrite ?assoc_get_set, ?String.eqb_refl; reflexivity.
  - cbn [orb]. destruct (existsb (String.eqb n) l && ac n m && cb n); [reflexivity|].
    destruct (ac x m); [|reflexivity].
    destruct (cb x); cbn [ADK._agent_cards]; [rewrite assoc_get_set, E|]; reflexivity.
Qed.

Lemma adk_initialize_initialized :
  forall st lmc ac cb svc, ADK._initialized (ADK.initialize st lmc ac cb svc) = true.
Proof.
  intros st lmc ac cb svc. unfold ADK.initialize.
  destruct (ADK._initialized svc) eqn:E; [exact E | reflexivity].
Qed.

Lemma adk_initialize_idem :
  forall st lmc ac cb svc,
    ADK.initialize st lmc ac cb (ADK.initialize st lmc ac cb svc) = ADK.initialize st lmc ac cb svc.
Proof.
  intros st lmc ac cb svc. unfold ADK.initialize at 1.
  rewrite adk_initialize_initialized. reflexivity.
Qed.

Lemma adk_fresh_agents :
  forall st lmc ac cb name,
    assoc_get (ADK._agents (ADK.initialize st lmc ac cb ADK.new_service)) name =
      let m := if lmc then ADK.ModelObj (ADK.get_llm_model st)
               else ADK.ModelName (ADK.get_llm_model_name st) in
      if existsb (String.eqb name) ADK.AGENT_CONFIGS && ac name m
      then Some (ADK.mkLlmAgent name m) else None.
Proof.
  intros st lmc ac cb name. unfold ADK.initialize.
  cbn [ADK._initialized ADK.new_service ADK._agents].
  rewrite fold_init_agent_get. reflexivity.
Qed.

(** [X8] [ADKAgentService.initialize()] runs once: afterwards the service is
    initialised and initialising it again changes nothing.  From the fresh
    global instance it creates an agent only for a key of [AGENT_CONFIGS],
    named by the key and built with the model object, or with the string
    ["provider/model"] when the model constructor raised; every config whose
    [LlmAgent] constructor returns gets its agent; a card exists only next to
    an agent, and it is the card built for that name. *)
Theorem adk_initialize_agents :
  forall st lmc ac cb name,
    let svc := ADK.initialize st lmc ac cb ADK.new_service in
    let m := if lmc then ADK.ModelObj (ADK.get_llm_model st)
             else ADK.ModelName (ADK.get_llm_model_name st) in
    ADK._initialized svc = true /\
    ADK.initialize st lmc ac cb svc = svc /\
    (forall a, assoc_get (ADK._agents svc) name = Some a ->
       In name ADK.AGENT_CONFIGS /\ a = ADK.mkLlmAgent name m) /\
    (In name ADK.AGENT_CONFIGS -> ac name m = true ->
       assoc_get (ADK._agents svc) name = Some (ADK.mkLlmAgent name m)) /\
    (forall card, assoc_get (ADK._agent_cards svc) name = Some card ->
       card = ADK.build_agent_card name /\ assoc_get (ADK._agents svc) name <> None).
Proof.
  intros st lmc ac cb name svc m.
  split; [apply adk_initialize_initialized|]. split; [apply adk_initialize_idem|].
  assert (Ha : assoc_get (ADK._agents svc) name =
            if existsb (String.eqb name) ADK.AGENT_CONFIGS && ac name m
            then Some (ADK.mkLlmAgent name m) else None).
  { unfold svc. rewrite adk_fresh_agents. reflexivity. }
  assert (Hc : assoc_get (ADK._agent_cards svc) name =
            if existsb (String.eqb name) ADK.AGENT_CONFIGS && ac name m && cb name
            then Some (ADK.build_agent_card name) else None).
  { unfold svc, ADK.initialize. cbn [ADK._initialized ADK.new_service ADK._agent_cards].
    rewrite fold_init_agent_cards. reflexivity. }
  split; [|split].
  - intros a H. rewrite Ha in H.
    destruct (existsb (String.eqb name) ADK.AGENT_CONFIGS) eqn:E; [|discriminate].
    destruct (ac name m); [|discriminate]. injection H as <-.
    split; [apply existsb_eqb_In, E | reflexivity].
  - intros Hin Hac. rewrite Ha. apply existsb_eqb_In in Hin. rewrite Hin, Hac. reflexivity.
  - intros card H. rewrite Hc in H. rewrite Ha.
    destruct (existsb (String.eqb name) ADK.AGENT_CONFIGS), (ac name m), (cb name);
      try discriminate. injection H as <-. split; [reflexivity | discriminate].
Qed.

Lemma call_agent_svc :
  forall st lmc ac cb svc,
    (if ADK._initialized svc then svc else ADK.initialize st lmc ac cb svc) =
      ADK.initialize st lmc ac cb svc.
Proof.
  intros st lmc ac cb svc. destruct (ADK._initialized svc) eqn:E; [|reflexivity].
  unfold ADK.initialize. rewrite E. reflexivity.
Qed.

Lemma call_agent_unfold :
  forall st lmc ac cb bp run es svc name skill input,
    ADK.call_agent st lmc ac cb bp run es svc name skill input =
    let svc' := ADK.initialize st lmc ac cb svc in
    match assoc_get (ADK._agents svc') name with
    | None =>
        (svc', [("status", VStr "error");
                ("error", VStr ("Agent " ++ name ++ " not found"));
                ("raw_output", VStr ("# Error" ++ A2A.nl ++ A2A.nl ++ "Agent " ++ name ++ " not found"))])
    | Some a =>
        match match bp skill input with Raise e => Raise e | Ok prompt => run a prompt end with
        | Ok raw_output =>
            (svc', [("status", VStr "success"); ("raw_output", VStr raw_output);
                    ("agent_name", VStr name); ("skill_name", VStr skill);
                    ("model_used", VStr (ADK.get_llm_model_name st))])
        | Raise e =>
            (svc', [("status", VStr "error"); ("error", VStr (es e));
                    ("raw_output", VStr ("# Error" ++ A2A.nl ++ A2A.nl ++ "Failed to execute " ++
                                         skill ++ ": " ++ es e))])
        end
    end.
Proof.
  intros. unfold ADK.call_agent, ADK.get_agent. cbv zeta. rewrite !call_agent_svc.
  rewrite adk_initialize_idem. reflexivity.
Qed.

(** [X9] [call_agent] never raises: it leaves the service initialised and
    answers a dict whose [raw_output] is a string and whose [status] is
    ["success"] exactly when the agent exists and both the prompt and the
    run return, and ["error"] with an [error] message otherwise. *)
Theorem call_agent_never_raises :
  forall st lmc ac cb bp run es svc name skill input,
    let r := ADK.call_agent st lmc ac cb bp run es svc name skill input in
    fst r = ADK.initialize st lmc ac cb svc /\
    (exists out, dict_get (snd r) "raw_output" = Some (VStr out)) /\
    (dict_get (snd r) "status" = Some (VStr "success") <->
       exists a prompt out, assoc_get (ADK._agents (fst r)) name = Some a /\
         bp skill input = Ok prompt /\ run a prompt = Ok out) /\
    (dict_get (snd r) "status" <> Some (VStr "success") ->
       dict_get (snd r) "status" = Some (VStr "error") /\
       exists msg, dict_get (snd r) "error" = Some (VStr msg)).
Proof.
  intros st lmc ac cb bp run es svc name skill input r. unfold r. rewrite call_agent_unfold.
  cbv zeta. destruct (assoc_get _ name) as [a|] eqn:Hg.
  - destruct (bp skill input) as [prompt|e] eqn:Hp; [destruct (run a prompt) as [out|e] eqn:Hr|].
    + cbn. split; [reflexivity|]. split; [eexists; reflexivity|]. split.
      * split; [intros _; exists a, prompt, out; auto | reflexivity].
      * intros H. exfalso. apply H. reflexivity.
    + cbn. split; [reflexivity|]. split; [eexists; reflexivity|]. split.
      * split; [discriminate|]. intros (a' & p' & o' & Ha & Hp' & Hr').
        congruence.
      * intros _. split; [reflexivity | eexists; reflexivity].
    + cbn. split; [reflexivity|]. split; [eexists; reflexivity|]. split.
      * split; [discriminate|]. intros (a' & p' & o' & Ha & Hp' & Hr'). congruence.
      * intros _. split; [reflexivity | eexists; reflexivity].
  - cbn. split; [reflexivity|]. split; [eexists; reflexivity|]. split.
    + split; [discriminate|]. intros (a' & p' & o' & Ha & _). congruence.
    + intros _. split; [reflexivity | eexists; reflexivity].
Qed.

Lemma call_skill_mode :
  forall py_str env c skill input,
    A2A.call_skill py_str env c skill input =
      if A2A._use_adk c && A2A._adk_service c then
        match A2A.adk_call_agent env (A2A.agent_name c) skill input with
        | Ok result => Ok result
        | Raise _ => Ok (A2A._get_stub_response py_str c skill input)
        end
      else Ok (A2A._get_stub_response py_str c skill input).
Proof. reflexivity. Qed.

(** [X11] A client initialised against the ADK service uses it exactly when
    the service has an agent of the client's name and has credentials; then
    [call_skill] returns [call_agent]'s dict, the stub fallback of its
    [except] being unreachable because [call_agent] never raises; otherwise
    it returns the stub response. *)
Theorem client_uses_adk_exactly :
  forall st lmc ac cb bp run es svc name url py_str c,
    A2A.initialize (ADK.adk_env st lmc ac cb bp run es svc) (A2A.new_client name url) = Ok c ->
    let svc' := ADK.initialize st lmc ac cb svc in
    A2A.is_initialized c = true /\ A2A.agent_name c = name /\
    forall skill input,
      A2A.call_skill py_str (ADK.adk_env st lmc ac cb bp run es svc) c skill input =
        if ADK.is_configured st &&
           match assoc_get (ADK._agents svc') name with Some _ => true | None => false end
        then Ok (VDict (snd (ADK.call_agent st lmc ac cb bp run es svc' name skill input)))
        else Ok (A2A._get_stub_response py_str c skill input).
Proof.
  intros st lmc ac cb bp run es svc name url py_str c H svc'.
  apply a2a_initialize_adk_env in H. subst c.
  split; [reflexivity|]. split; [reflexivity|]. intros skill input.
  rewrite call_skill_mode. cbn [A2A._use_adk A2A._adk_service A2A.agent_name].
  fold svc'. destruct (assoc_get (ADK._agents svc') name); cbn [andb];
    rewrite ?andb_true_r, ?andb_false_r; [|reflexivity].
  destruct (ADK.is_configured st); reflexivity.
Qed.

Lemma unknown_provider_cases :
  forall st, ~ In (ADK.LLM_PROVIDER st) ["anthropic"; "google"; "gemini"; "azure"; "bedrock"; "openai"] ->
    String.eqb (ADK.LLM_PROVIDER st) "anthropic" = false /\
    String.eqb (ADK.LLM_PROVIDER st) "google" = false /\
    String.eqb (ADK.LLM_PROVIDER st) "gemini" = false /\
    String.eqb (ADK.LLM_PROVIDER st) "azure" = false /\
    String.eqb (ADK.LLM_PROVIDER st) "bedrock" = false /\
    String.eqb (ADK.LLM_PROVIDER st) "openai" = false.
Proof.
  intros st H. repeat split; apply String.eqb_neq; intros E; apply H; rewrite E; simpl; tauto.
Qed.

(** [X10] A provider outside the five known ones is not rejected:
    [get_llm_model] silently builds Gemini ["gemini-2.0-flash"] whatever
    [LLM_MODEL] says, [is_configured] is false, and so every client falls
    back to the stub responses. *)
Theorem unknown_provider_falls_back :
  forall st,
    ~ In (ADK.LLM_PROVIDER st) ["anthropic"; "google"; "gemini"; "azure"; "bedrock"; "openai"] ->
    ADK.get_llm_model st = ADK.Gemini "gemini-2.0-flash" /\ ADK.is_configured st = false /\
    forall lmc ac cb bp run es svc name url py_str c skill input,
      A2A.initialize (ADK.adk_env st lmc ac cb bp run es svc) (A2A.new_client name url) = Ok c ->
      A2A.call_skill py_str (ADK.adk_env st lmc ac cb bp run es svc) c skill input =
        Ok (A2A._get_stub_response py_str c skill input).
Proof.
  intros st H. destruct (unknown_provider_cases st H) as (E1 & E2 & E3 & E4 & E5 & E6).
  assert (Hc : ADK.is_configured st = false).
  { unfold ADK.is_configured. rewrite E1, E2, E3, E4, E5, E6. reflexivity. }
  split; [|split; [exact Hc|]].
  - unfold ADK.get_llm_model. rewrite E1, E2, E3, E4, E5, E6. reflexivity.
  - intros lmc ac cb bp run es svc name url py_str c skill input Hi.
    apply a2a_initialize_adk_env in Hi. subst c. rewrite call_skill_mode.
    cbn [A2A._use_adk A2A._adk_service]. rewrite Hc, andb_false_r. reflexivity.
Qed.

(** [X12] The agent names the seed data stores are hyphenated and none is a
    key of [AGENT_CONFIGS]; contrary to its docstring [call_agent] does no
    name mapping.  A client for such a name, initialised against the global
    service, never uses ADK and answers with the stub, and [call_agent]
    itself answers ["Agent <name> not found"]. *)
Theorem seeded_agents_never_use_adk :
  (forall n, In n seeded_agent_names -> ~ In n ADK.AGENT_CONFIGS) /\
  forall st lmc ac cb bp run es name url py_str c,
    ~ In name ADK.AGENT_CONFIGS ->
    A2A.initialize (ADK.adk_env st lmc ac cb bp run es ADK.new_service) (A2A.new_client name url) =
      Ok c ->
    A2A._use_adk c = false /\
    (forall skill input,
       A2A.call_skill py_str (ADK.adk_env st lmc ac cb bp run es ADK.new_service) c skill input =
         Ok (A2A._get_stub_response py_str c skill input)) /\
    (forall skill input,
       snd (ADK.call_agent st lmc ac cb bp run es ADK.new_service name skill input) =
         [("status", VStr "error");
          ("error", VStr ("Agent " ++ name ++ " not found"));
          ("raw_output", VStr ("# Error" ++ A2A.nl ++ A2A.nl ++ "Agent " ++ name ++ " not found"))]).
Proof.
  split.
  - intros n Hn. unfold seeded_agent_names in Hn. unfold ADK.AGENT_CONFIGS.
    repeat (destruct Hn as [<-|Hn]); [..|destruct Hn];
      simpl; intros H; repeat (destruct H as [H|H]; [discriminate H|]); exact H.
  - intros st lmc ac cb bp run es name url py_str c Hn Hi.
    assert (Hg : assoc_get (ADK._agents (ADK.initialize st lmc ac cb ADK.new_service)) name = None).
    { destruct (assoc_get _ name) as [a|] eqn:E; [|reflexivity].
      rewrite adk_fresh_agents in E. cbv zeta in E.
      destruct (existsb (String.eqb name) ADK.AGENT_CONFIGS) eqn:Hx; [|discriminate].
      apply existsb_eqb_In in Hx. contradiction. }
    apply a2a_initialize_adk_env in Hi. rewrite Hg in Hi. subst c.
    split; [reflexivity|]. split.
    + intros skill input. reflexivity.
    + intros skill input. rewrite call_agent_unfold. cbv zeta. rewrite Hg. reflexivity.
Qed.

Lemma In_agent_rows :
  forall sid db sa a,
    In (sa, a) (agent_rows sid db) <->
    In sa (db_session_agents db) /\ sa_session_id sa = sid /\ sa_is_enabled sa = true /\
    In a (db_agents db) /\ a_id a = sa_agent_id sa /\ a_is_active a = true.
Proof.
  intros sid db sa a. unfold agent_rows. rewrite in_flat_map. split.
  - intros (sa' & Hsa' & Hin).
    destruct (String.eqb (sa_session_id sa') sid && sa_is_enabled sa') eqn:E; [|destruct Hin].
    apply in_map_iff in Hin as (a' & Heq & Ha'). injection Heq as <- <-.
    apply filter_In in Ha' as [Ha' Hc]. apply andb_prop in E as [E1 E2].
    apply andb_prop in Hc as [Hc1 Hc2]. apply String.eqb_eq in E1, Hc1. tauto.
  - intros (H1 & H2 & H3 & H4 & H5 & H6). exists sa. split; [exact H1|].
    rewrite H2, String.eqb_refl, H3. cbn [andb]. apply in_map_iff. exists a.
    split; [reflexivity|]. apply filter_In. rewrite H5, String.eqb_refl, H6. auto.
Qed.

Lemma fold_init_client_keys :
  forall env rows clients aid,
    In aid (map fst (fold_left (init_client env) rows clients)) <->
    In aid (map fst clients) \/ exists r, In r rows /\ a_id (snd r) = aid.
Proof.
  intros env rows. induction rows as [|r rows IH]; intros clients aid; simpl.
  - split; [tauto|]. intros [H|(r & [] & _)]. exact H.
  - rewrite IH. unfold init_client.
    destruct (a2a_initialize_ok env (A2A.new_client (a_name (snd r)) (a_service_endpoint (snd r))))
      as (c' & Hc & _). rewrite Hc, assoc_set_keys. split.
    + intros [[H|H]|(r' & Hr' & H)]; [right; exists r; auto | left; exact H | right; exists r'; auto].
    + intros [H|(r' & [<-|Hr'] & H)]; [left; right; exact H | left; left; exact H |].
      right. exists r'. auto.
Qed.

Lemma fold_init_client_get :
  forall env rows clients aid c,
    assoc_get (fold_left (init_client env) rows clients) aid = Some c ->
    assoc_get clients aid = Some c \/
    exists r, In r rows /\ a_id (snd r) = aid /\ A2A.agent_name c = a_name (snd r) /\
      A2A.service_url c = a_service_endpoint (snd r) /\ A2A.is_initialized c = true.
Proof.
  intros env rows. induction rows as [|r rows IH]; intros clients aid c H; simpl in H; [left; exact H|].
  apply IH in H as [H|(r' & Hr' & H)]; [|right; exists r'; split; [right; exact Hr' | exact H]].
  unfold init_client in H.
  destruct (a2a_initialize_ok env (A2A.new_client (a_name (snd r)) (a_service_endpoint (snd r))))
    as (c' & Hc & Hn & Hu & Hi). rewrite Hc, assoc_get_set in H.
  destruct (String.eqb aid (a_id (snd r))) eqn:E; [|left; exact H].
  injection H as <-. apply String.eqb_eq in E. right. exists r. simpl. auto.
Qed.

(** [X13] The orchestrator's [initialize()] raises [ValueError("Session <id>
    not found")] when no session has its id; it does not look at the
    session's project or status, so an archived session is accepted.
    Otherwise it keeps the clients it had and adds one initialised client,
    named and addressed as the agent, for each enabled agent row of the
    session whose agent is active, keyed by the agent id. *)
Theorem orchestrator_initialize_clients :
  forall env o db,
    (find (fun s => String.eqb (so_id s) (o_session_id o)) (db_sessions db) = None ->
       initialize env o db = Raise (ValueError ("Session " ++ o_session_id o ++ " not found"))) /\
    (forall o', initialize env o db = Ok o' ->
       (exists s, o_session o' = Some s /\ In s (db_sessions db) /\ so_id s = o_session_id o) /\
       (forall aid, In aid (map fst (agent_clients o')) <->
          In aid (map fst (agent_clients o)) \/
          exists sa a, In sa (db_session_agents db) /\ sa_session_id sa = o_session_id o /\
            sa_is_enabled sa = true /\ In a (db_agents db) /\ a_id a = sa_agent_id sa /\
            a_is_active a = true /\ a_id a = aid) /\
       (forall aid c, assoc_get (agent_clients o') aid = Some c ->
          assoc_get (agent_clients o) aid = Some c \/
          (A2A.is_initialized c = true /\
           exists a, In a (db_agents db) /\ a_is_active a = true /\ a_id a = aid /\
             A2A.agent_name c = a_name a /\ A2A.service_url c = a_service_endpoint a))).
Proof.
  intros env o db. unfold initialize. split.
  - intros H. rewrite H. reflexivity.
  - intros o' H. destruct (find _ (db_sessions db)) as [s|] eqn:Hf; [|discriminate].
    injection H as <-. cbn [o_session agent_clients].
    apply find_some in Hf as [Hin Hid]. apply String.eqb_eq in Hid.
    split; [exists s; auto|]. split.
    + intros aid. rewrite fold_init_client_keys. split.
      * intros [H|([sa a] & Hr & H)]; [left; exact H|]. right.
        apply In_agent_rows in Hr. exists sa, a. simpl in H. tauto.
      * intros [H|(sa & a & H1 & H2 & H3 & H4 & H5 & H6 & H7)]; [left; exact H|]. right.
        exists (sa, a). split; [apply In_agent_rows; tauto | exact H7].
    + intros aid c H. apply fold_init_client_get in H as [H|([sa a] & Hr & H1 & H2 & H3 & H4)];
        [left; exact H|]. right. apply In_agent_rows in Hr. simpl in *.
      split; [exact H4|]. exists a. tauto.
Qed.

Lemma client_call_close :
  forall py_str env c, client_call py_str env (A2A.close c) = client_call py_str env c.
Proof. reflexivity. Qed.

(** [X14] The orchestrator's [close()] keeps every client under its agent id
    and leaves each one uninitialised, but nothing checks [is_initialized]:
    with the real clients, every [execute_single_agent] answers after
    [close()] exactly as before. *)
Theorem orchestrator_close_no_effect :
  forall o,
    map fst (agent_clients (close o)) = map fst (agent_clients o) /\
    (forall aid c, assoc_get (agent_clients (close o)) aid = Some c ->
       A2A.is_initialized c = false) /\
    (forall py_str env jd ts es cu db st aid skill input,
       execute_single_agent (client_call py_str env) jd ts es cu (close o) db st aid skill input =
       execute_single_agent (client_call py_str env) jd ts es cu o db st aid skill input).
Proof.
  intros o. split; [|split].
  - unfold close. cbn [agent_clients]. rewrite map_map. reflexivity.
  - intros aid c H. unfold close in H. cbn [agent_clients] in H.
    rewrite (assoc_get_map _ _ A2A.close) in H.
    destruct (assoc_get (agent_clients o) aid); [|discriminate]. injection H as <-. reflexivity.
  - intros py_str env jd ts es cu db st aid skill input.
    unfold execute_single_agent at 1. unfold close at 1. cbn [agent_clients].
    rewrite (assoc_get_map _ _ A2A.close).
    unfold execute_single_agent. destruct (assoc_get (agent_clients o) aid); reflexivity.
Qed.

Lemma execute_single_agent_ok :
  forall call jd ts es cu o db st aid skill input c a s result,
    assoc_get (agent_clients o) aid = Some c ->
    find (fun a => String.eqb (a_id a) aid) (db_agents db) = Some a ->
    o_session o = Some s ->
    call c skill input = Ok result ->
    exists st', execute_single_agent call jd ts es cu o db st aid skill input = (Ok result, st') /\
      map fst (st_events st') =
        (map fst (st_events st) ++ ["agent_started"; "agent_completed"; "cell_created"])%list /\
      exists cell m,
        st_cells st' = (st_cells st ++ [cell])%list /\
        st_session_cells st' =
          (st_session_cells st ++ [mkSessionCellRow (o_session_id o) (cell_id cell) 0 (Some (a_name a))])%list /\
        st_memories st' = (st_memories st ++ [m])%list /\
        cell_project_id cell = so_project_id s /\ om_project_id m = so_project_id s /\
        om_session_id m = o_session_id o /\ om_memory_type m = "result" /\
        (cell_type cell, cell_content cell) = cell_of_result jd result /\
        om_content m = memory_content a skill result.
Proof.
  intros call jd ts es cu o db st aid skill input c a s result Hc Ha Hs Hr.
  unfold execute_single_agent. rewrite Hc, Ha, Hr.
  unfold _create_cell_from_result, _create_memory_from_result, session_project_id. rewrite Hs.
  destruct (cell_of_result jd result) as [cty content] eqn:Hcr.
  eexists. split; [reflexivity|]. cbn.
  split; [rewrite !map_app, <- !app_assoc; reflexivity|].
  do 2 eexists. repeat split; rewrite <- ?app_assoc; reflexivity.
Qed.

(** [X15] A run of [execute_single_agent] whose client answers sends, in
    order, [agent_started], [agent_completed] and [cell_created], returns the
    client's result, adds one cell of the session's project linked to the
    session at position 0 under the agent's name, and one [result] memory.
    With a [raw_output] the cell is markdown and cell and memory both hold
    it; without one the memory says ["Agent <display name> executed skill
    '<skill>'"], and the cell is a code cell exactly when the result has a
    [code] key. *)
Theorem execute_single_agent_success :
  forall call jd ts es cu o db st aid skill input c a s result,
    assoc_get (agent_clients o) aid = Some c ->
    find (fun a => String.eqb (a_id a) aid) (db_agents db) = Some a ->
    o_session o = Some s ->
    call c skill input = Ok result ->
    exists st', execute_single_agent call jd ts es cu o db st aid skill input = (Ok result, st') /\
      map fst (st_events st') =
        (map fst (st_events st) ++ ["agent_started"; "agent_completed"; "cell_created"])%list /\
      exists cell m,
        st_cells st' = (st_cells st ++ [cell])%list /\
        st_session_cells st' =
          (st_session_cells st ++ [mkSessionCellRow (o_session_id o) (cell_id cell) 0 (Some (a_name a))])%list /\
        st_memories st' = (st_memories st ++ [m])%list /\
        cell_project_id cell = so_project_id s /\ om_project_id m = so_project_id s /\
        om_memory_type m = "result" /\
        (forall v, dict_get result "raw_output" = Some v ->
           cell_type cell = "markdown" /\ cell_content cell = v /\ om_content m = v) /\
        (dict_get result "raw_output" = None ->
           om_content m = VStr ("Agent " ++ a_display_name a ++ " executed skill '" ++ skill ++ "'") /\
           (cell_type cell = "code" <-> dict_get result "code" <> None)).
Proof.
  intros call jd ts es cu o db st aid skill input c a s result Hc Ha Hs Hr.
  destruct (execute_single_agent_ok call jd ts es cu o db st aid skill input c a s result Hc Ha Hs Hr)
    as (st' & Hex & Hev & cell & m & H1 & H2 & H3 & H4 & H5 & _ & H7 & H8 & H9).
  exists st'. split; [exact Hex|]. split; [exact Hev|]. exists cell, m.
  do 6 (split; [assumption|]). unfold cell_of_result in H8. unfold memory_content in H9.
  split.
  - intros v Hv. rewrite Hv in H8, H9. injection H8 as -> ->. auto.
  - intros Hv. rewrite Hv in H8, H9. split; [exact H9|].
    destruct (dict_get result "code"); injection H8 as -> _; split; congruence.
Qed.

(** [X16] [execute_single_agent] raises [ValueError("Agent <id> not
    available")] when the orchestrator has no client for the id and
    [ValueError("Agent <id> not found")] when the agent row is missing, both
    before sending any event or writing anything.  When the client's call
    raises, it sends [agent_started] then [agent_error], writes no cell or
    memory, and re-raises the same exception. *)
Theorem execute_single_agent_errors :
  forall call jd ts es cu o db st aid skill input,
    (assoc_get (agent_clients o) aid = None ->
       execute_single_agent call jd ts es cu o db st aid skill input =
         (Raise (ValueError ("Agent " ++ aid ++ " not available")), st)) /\
    (assoc_get (agent_clients o) aid <> None ->
       find (fun a => String.eqb (a_id a) aid) (db_agents db) = None ->
       execute_single_agent call jd ts es cu o db st aid skill input =
         (Raise (ValueError ("Agent " ++ aid ++ " not found")), st)) /\
    (forall c a e,
       assoc_get (agent_clients o) aid = Some c ->
       find (fun a => String.eqb (a_id a) aid) (db_agents db) = Some a ->
       call c skill input = Raise e ->
       exists st', execute_single_agent call jd ts es cu o db st aid skill input = (Raise e, st') /\
         st_cells st' = st_cells st /\ st_session_cells st' = st_session_cells st /\
         st_memories st' = st_memories st /\
         map fst (st_events st') = (map fst (st_events st) ++ ["agent_started"; "agent_error"])%list).
Proof.
  intros call jd ts es cu o db st aid skill input. unfold execute_single_agent. split; [|split].
  - intros H. rewrite H. reflexivity.
  - intros H Hf. destruct (assoc_get (agent_clients o) aid); [|contradiction]. rewrite Hf. reflexivity.
  - intros c a e Hc Ha He. rewrite Hc, Ha, He. eexists. split; [reflexivity|]. cbn.
    repeat split. rewrite !map_app, <- !app_assoc. reflexivity.
Qed.

Lemma stub_response_shape :
  forall py_str c skill input,
    exists d, A2A._get_stub_response py_str c skill input = VDict d /\
      (skill = "generate_code" -> dict_get d "raw_output" = None /\ dict_get d "code" <> None) /\
      (skill <> "generate_code" -> exists t, dict_get d "raw_output" = Some (VStr (String "#" t))).
Proof.
  intros py_str c skill input. unfold A2A._get_stub_response.
  destruct (String.eqb skill "generate_code") eqn:E3.
  - apply String.eqb_eq in E3. subst skill. eexists. split; [reflexivity|].
    split; [intros _; split; [reflexivity | discriminate] | intros H; contradiction].
  - assert (Hn : skill <> "generate_code").
    { intros H. rewrite H, String.eqb_refl in E3. discriminate. }
    repeat match goal with |- context [if String.eqb skill ?x then _ else _] =>
      destruct (String.eqb skill x) end;
    (eexists; split;
       [reflexivity | split; [intros H; contradiction | intros _; eexists; reflexivity]]).
Qed.

(** [X17] With the repository's client in stub mode (no ADK agent for its
    name, as for every seeded agent), a run of [execute_single_agent] never
    sends [agent_error]: it returns the stub dict, and the cell it adds is a
    code cell, and the memory the default text, exactly when the skill is
    [generate_code]. *)
Theorem stub_run_cells :
  forall py_str env jd ts es cu o db st aid skill input c a s,
    assoc_get (agent_clients o) aid = Some c ->
    A2A._use_adk c && A2A._adk_service c = false ->
    find (fun a => String.eqb (a_id a) aid) (db_agents db) = Some a ->
    o_session o = Some s ->
    exists d st',
      A2A._get_stub_response py_str c skill input = VDict d /\
      execute_single_agent (client_call py_str env) jd ts es cu o db st aid skill input = (Ok d, st') /\
      map fst (st_events st') =
        (map fst (st_events st) ++ ["agent_started"; "agent_completed"; "cell_created"])%list /\
      exists cell m,
        st_cells st' = (st_cells st ++ [cell])%list /\ st_memories st' = (st_memories st ++ [m])%list /\
        (cell_type cell = "code" <-> skill = "generate_code") /\
        (om_content m = VStr ("Agent " ++ a_display_name a ++ " executed skill '" ++ skill ++ "'") <->
         skill = "generate_code").
Proof.
  intros py_str env jd ts es cu o db st aid skill input c a s Hc Hm Ha Hs.
  destruct (stub_response_shape py_str c skill input) as (d & Hd & Hgc & Hother).
  assert (Hr : client_call py_str env c skill input = Ok d).
  { unfold client_call. rewrite call_skill_mode, Hm, Hd. reflexivity. }
  destruct (execute_single_agent_ok (client_call py_str env) jd ts es cu o db st aid skill input
              c a s d Hc Ha Hs Hr)
    as (st' & Hex & Hev & cell & m & H1 & _ & H3 & _ & _ & _ & _ & H8 & H9).
  exists d, st'. split; [exact Hd|]. split; [exact Hex|]. split; [exact Hev|].
  exists cell, m. split; [exact H1|]. split; [exact H3|].
  unfold cell_of_result in H8. unfold memory_content in H9.
  destruct (string_dec skill "generate_code") as [Eg|Eg].
  - destruct (Hgc Eg) as [Hraw Hcode]. rewrite Hraw in H8, H9.
    destruct (dict_get d "code"); [|contradiction]. injection H8 as Ht _.
    rewrite Ht, H9. split; split; auto.
  - destruct (Hother Eg) as (t & Hraw). rewrite Hraw in H8, H9. injection H8 as Ht _.
    rewrite Ht, H9. split; split; intros H; try contradiction; try discriminate.
Qed.

(** Witnesses of the ADK, client and orchestrator properties. *)

Lemma client_uses_adk_exactly_witness :
  exists c,
    A2A.initialize (ADK.adk_env settings_anthropic true constructs_all builds_all prompt_of_skill
                      run_echo exn_message ADK.new_service)
      (A2A.new_client "hypothesis_agent" None) = Ok c /\
    (let svc' := ADK.initialize settings_anthropic true constructs_all builds_all ADK.new_service in
     A2A.is_initialized c = true /\ A2A.agent_name c = "hypothesis_agent" /\
     forall skill input,
       A2A.call_skill str_of_text
         (ADK.adk_env settings_anthropic true constructs_all builds_all prompt_of_skill run_echo
            exn_message ADK.new_service) c skill input =
         if ADK.is_configured settings_anthropic &&
            match assoc_get (ADK._agents svc') "hypothesis_agent" with Some _ => true | None => false end
         then Ok (VDict (snd (ADK.call_agent settings_anthropic true constructs_all builds_all
                                prompt_of_skill run_echo exn_message svc' "hypothesis_agent" skill input)))
         else Ok (A2A._get_stub_response str_of_text c skill input)).
Proof.
  eexists. split; [vm_compute; reflexivity|].
  apply (client_uses_adk_exactly settings_anthropic true constructs_all builds_all prompt_of_skill
           run_echo exn_message ADK.new_service "hypothesis_agent" None str_of_text).
  vm_compute. reflexivity.
Defined.

Lemma unknown_provider_falls_back_witness :
  ~ In (ADK.LLM_PROVIDER settings_mistral) ["anthropic"; "google"; "gemini"; "azure"; "bedrock"; "openai"] /\
  ADK.get_llm_model settings_mistral = ADK.Gemini "gemini-2.0-flash" /\
  ADK.is_configured settings_mistral = false /\
  forall lmc ac cb bp run es svc name url py_str c skill input,
    A2A.initialize (ADK.adk_env settings_mistral lmc ac cb bp run es svc) (A2A.new_client name url) = Ok c ->
    A2A.call_skill py_str (ADK.adk_env settings_mistral lmc ac cb bp run es svc) c skill input =
      Ok (A2A._get_stub_response py_str c skill input).
Proof.
  assert (H : ~ In (ADK.LLM_PROVIDER settings_mistral)
                ["anthropic"; "google"; "gemini"; "azure"; "bedrock"; "openai"]).
  { simpl. intros H. repeat (destruct H as [H|H]; [discriminate H|]). exact H. }
  split; [exact H | apply (unknown_provider_falls_back settings_mistral H)].
Defined.

Lemma seeded_agents_never_use_adk_witness :
  ~ In "hypothesis-agent" ADK.AGENT_CONFIGS /\
  exists c,
    A2A.initialize (ADK.adk_env settings_anthropic true constructs_all builds_all prompt_of_skill
                      run_echo exn_message ADK.new_service)
      (A2A.new_client "hypothesis-agent" None) = Ok c /\
    A2A._use_adk c = false /\
    (forall skill input,
       A2A.call_skill str_of_text
         (ADK.adk_env settings_anthropic true constructs_all builds_all prompt_of_skill run_echo
            exn_message ADK.new_service) c skill input =
         Ok (A2A._get_stub_response str_of_text c skill input)) /\
    (forall skill input,
       snd (ADK.call_agent settings_anthropic true constructs_all builds_all prompt_of_skill run_echo
              exn_message ADK.new_service "hypothesis-agent" skill input) =
         [("status", VStr "error");
          ("error", VStr ("Agent " ++ "hypothesis-agent" ++ " not found"));
          ("raw_output", VStr ("# Error" ++ A2A.nl ++ A2A.nl ++ "Agent " ++ "hypothesis-agent" ++
                               " not found"))]).
Proof.
  assert (Hn : ~ In "hypothesis-agent" ADK.AGENT_CONFIGS).
  { simpl. intros H. repeat (destruct H as [H|H]; [discriminate H|]). exact H. }
  split; [exact Hn|]. eexists. split; [vm_compute; reflexivity|].
  apply (proj2 seeded_agents_never_use_adk settings_anthropic true constructs_all builds_all
           prompt_of_skill run_echo exn_message "hypothesis-agent" None str_of_text); [exact Hn|].
  vm_compute. reflexivity.
Defined.

Lemma orchestrator_initialize_clients_witness :
  initialize adk_ok (new_orchestrator "s9" "u1") db_demo =
    Raise (ValueError ("Session " ++ "s9" ++ " not found")) /\
  exists o',
    initialize adk_ok (new_orchestrator "s1" "u1") db_demo = Ok o' /\
    (exists s, o_session o' = Some s /\ In s (db_sessions db_demo) /\ so_id s = "s1") /\
    (forall aid, In aid (map fst (agent_clients o')) <->
       In aid (map fst (agent_clients (new_orchestrator "s1" "u1"))) \/
       exists sa a, In sa (db_session_agents db_demo) /\ sa_session_id sa = "s1" /\
         sa_is_enabled sa = true /\ In a (db_agents db_demo) /\ a_id a = sa_agent_id sa /\
         a_is_active a = true /\ a_id a = aid) /\
    (forall aid c, assoc_get (agent_clients o') aid = Some c ->
       assoc_get (agent_clients (new_orchestrator "s1" "u1")) aid = Some c \/
       (A2A.is_initialized c = true /\
        exists a, In a (db_agents db_demo) /\ a_is_active a = true /\ a_id a = aid /\
          A2A.agent_name c = a_name a /\ A2A.service_url c = a_service_endpoint a)).
Proof.
  split.
  - apply (proj1 (orchestrator_initialize_clients adk_ok (new_orchestrator "s9" "u1") db_demo)).
    vm_compute. reflexivity.
  - eexists. split; [vm_compute; reflexivity|].
    apply (proj2 (orchestrator_initialize_clients adk_ok (new_orchestrator "s1" "u1") db_demo)).
    vm_compute. reflexivity.
Defined.

Lemma execute_single_agent_success_witness :
  exists result,
    client_call str_of_text adk_ok client_hyp "generate_code" [] = Ok result /\
    exists st', execute_single_agent (client_call str_of_text adk_ok) json_text "t0" exn_message cell_ids
                  orch_demo db_demo store_empty "ag_h" "generate_code" [] = (Ok result, st') /\
      map fst (st_events st') =
        (map fst (st_events store_empty) ++ ["agent_started"; "agent_completed"; "cell_created"])%list /\
      exists cell m,
        st_cells st' = (st_cells store_empty ++ [cell])%list /\
        st_session_cells st' =
          (st_session_cells store_empty ++
           [mkSessionCellRow (o_session_id orch_demo) (cell_id cell) 0 (Some (a_name agent_hyp))])%list /\
        st_memories st' = (st_memories store_empty ++ [m])%list /\
        cell_project_id cell = so_project_id session_failed /\
        om_project_id m = so_project_id session_failed /\
        om_memory_type m = "result" /\
        (forall v, dict_get result "raw_output" = Some v ->
           cell_type cell = "markdown" /\ cell_content cell = v /\ om_content m = v) /\
        (dict_get result "raw_output" = None ->
           om_content m = VStr ("Agent " ++ a_display_name agent_hyp ++ " executed skill '" ++
                                "generate_code" ++ "'") /\
           (cell_type cell = "code" <-> dict_get result "code" <> None)).
Proof.
  eexists. split; [vm_compute; reflexivity|].
  apply (execute_single_agent_success (client_call str_of_text adk_ok) json_text "t0" exn_message
           cell_ids orch_demo db_demo store_empty "ag_h" "generate_code" [] client_hyp agent_hyp
           session_failed); vm_compute; reflexivity.
Defined.

Lemma execute_single_agent_errors_witness :
  execute_single_agent (client_call str_of_text adk_ok) json_text "t0" exn_message cell_ids
    orch_demo db_demo store_empty "ag_sys" "review_literature" [] =
    (Raise (ValueError ("Agent " ++ "ag_sys" ++ " not available")), store_empty).
Proof.
  apply (proj1 (execute_single_agent_errors (client_call str_of_text adk_ok) json_text "t0"
                  exn_message cell_ids orch_demo db_demo store_empty "ag_sys" "review_literature" [])).
  vm_compute. reflexivity.
Defined.

Lemma stub_run_cells_witness :
  exists d st',
    A2A._get_stub_response str_of_text client_hyp "generate_code" [] = VDict d /\
    execute_single_agent (client_call str_of_text adk_ok) json_text "t0" exn_message cell_ids
      orch_demo db_demo store_empty "ag_h" "generate_code" [] = (Ok d, st') /\
    map fst (st_events st') =
      (map fst (st_events store_empty) ++ ["agent_started"; "agent_completed"; "cell_created"])%list /\
    exists cell m,
      st_cells st' = (st_cells store_empty ++ [cell])%list /\
      st_memories st' = (st_memories store_empty ++ [m])%list /\
      (cell_type cell = "code" <-> "generate_code" = "generate_code") /\
      (om_content m = VStr ("Agent " ++ a_display_name agent_hyp ++ " executed skill '" ++
                            "generate_code" ++ "'") <->
       "generate_code" = "generate_code").
Proof.
  apply (stub_run_cells str_of_text adk_ok json_text "t0" exn_message cell_ids orch_demo db_demo
           store_empty "ag_h" "generate_code" [] client_hyp agent_hyp session_failed);
    vm_compute; reflexivity.
Defined.
